(** * Steam inventory trade helper: fetch, join and diff

    A shallow embedding of the inventory pipeline of [streamlit_app.py]:
    [fetch_steam_inventory] (the paginated fetch, its exception handlers and
    the final join by market hash name) and
    [analyze_inventories_for_streamlit] (the three-way diff).

    Python values are the values [json.loads] produces.  Dictionaries built
    by the program keep insertion order, so they are association lists with
    Python's key equality; exceptions are explicit results. *)

From Stdlib Require Import ZArith List String Ascii Bool Lia Setoid DecimalString.
From Stdlib Require Import Sorted Permutation.
Import ListNotations.

Local Open Scope string_scope.
Local Open Scope Z_scope.

Set Warnings "-register-all".

(** ** Python values *)

(** What [response.json()] yields.  A [JObj] is the parsed [dict]: its keys
    are pairwise distinct and [obj_get] reads the binding of a key.  Number
    literals with a fraction or an exponent (Python floats) are outside the
    model: the endpoint sends identifiers, amounts and flags as strings and
    integers. *)
Inductive json : Type :=
  | JNull
  | JBool (b : bool)
  | JInt (z : Z)
  | JStr (s : string)
  | JArr (items : list json)
  | JObj (fields : list (string * json)).

(** The exception classes that can reach the handlers of
    [fetch_steam_inventory].  [Timeout] and [RequestException] are the
    classes of [requests.exceptions]; [RequestException] here stands for any
    instance that is neither a timeout nor a JSON error (connection errors,
    [HTTPError] from [raise_for_status], ...).  [RequestsJSONDecodeError] is
    [requests.exceptions.JSONDecodeError], which derives from both
    [InvalidJSONError] (a [RequestException]) and [json.JSONDecodeError]
    (a [ValueError]). *)
Inductive exn : Type :=
  | Timeout
  | RequestException
  | RequestsJSONDecodeError
  | ValueError
  | TypeError
  | AttributeError.

Definition isinstance_Timeout (e : exn) : bool :=
  match e with Timeout => true | _ => false end.

Definition isinstance_RequestException (e : exn) : bool :=
  match e with
  | Timeout | RequestException | RequestsJSONDecodeError => true
  | _ => false
  end.

Definition isinstance_ValueError (e : exn) : bool :=
  match e with
  | RequestsJSONDecodeError | ValueError => true
  | _ => false
  end.

(** A computation that returns a value or raises. *)
Inductive result (A : Type) : Type :=
  | Ok (a : A)
  | Raise (e : exn).
Arguments Ok {A} a.
Arguments Raise {A} e.

Definition bind {A B : Type} (m : result A) (f : A -> result B) : result B :=
  match m with
  | Ok a => f a
  | Raise e => Raise e
  end.

Notation "x <- m ;; k" := (bind m (fun x => k))
  (at level 61, m at next level, right associativity).

(** [for x in xs: acc = f(acc, x)], stopping at the first exception. *)
Fixpoint foldM {A B : Type} (f : A -> B -> result A) (xs : list B) (acc : A)
  : result A :=
  match xs with
  | [] => Ok acc
  | x :: rest => acc' <- f acc x ;; foldM f rest acc'
  end.

(** *** Truthiness, comparison with an integer, iteration *)

Definition py_truthy (v : json) : bool :=
  match v with
  | JNull => false
  | JBool b => b
  | JInt z => negb (z =? 0)
  | JStr s => negb (String.eqb s "")
  | JArr items => match items with [] => false | _ => true end
  | JObj fields => match fields with [] => false | _ => true end
  end.

(** [v == n] for an integer literal [n]: [True == 1] and [False == 0]. *)
Definition py_eq_int (v : json) (n : Z) : bool :=
  match v with
  | JInt z => z =? n
  | JBool b => (if b then 1 else 0) =? n
  | _ => false
  end.

Definition obj_get (name : string) (fields : list (string * json)) : option json :=
  match find (fun kv => String.eqb (fst kv) name) fields with
  | Some kv => Some (snd kv)
  | None => None
  end.

Definition obj_has (name : string) (fields : list (string * json)) : bool :=
  match obj_get name fields with Some _ => true | None => false end.

(** [d.get(name, default)] on a dict. *)
Definition obj_get_default (name : string) (default : json)
  (fields : list (string * json)) : json :=
  match obj_get name fields with Some v => v | None => default end.

(** [o.get(name, default)] on any value: only a dict has [get]. *)
Definition py_get (o : json) (name : string) (default : json) : result json :=
  match o with
  | JObj fields => Ok (obj_get_default name default fields)
  | _ => Raise AttributeError
  end.

Fixpoint chars (s : string) : list json :=
  match s with
  | EmptyString => []
  | String c rest => JStr (String c EmptyString) :: chars rest
  end.

(** The elements a [for] loop visits: a list gives its items, a dict its
    keys, a string its characters; nothing else is iterable. *)
Definition py_iter (v : json) : result (list json) :=
  match v with
  | JArr items => Ok items
  | JObj fields => Ok (map (fun kv => JStr (fst kv)) fields)
  | JStr s => Ok (chars s)
  | _ => Raise TypeError
  end.

(** *** [int(x)] *)

(** The characters [int] skips around the digits, on ASCII text: tab,
    line feed, vertical tab, form feed, carriage return and space. *)
Definition is_space (c : ascii) : bool :=
  let n := nat_of_ascii c in
  (((9 <=? n) && (n <=? 13)) || (n =? 32))%nat.

Definition digit_of (c : ascii) : option Z :=
  let n := Z.of_nat (nat_of_ascii c) in
  if (48 <=? n) && (n <=? 57) then Some (n - 48) else None.

Fixpoint lstrip_space (l : list ascii) : list ascii :=
  match l with
  | c :: rest => if is_space c then lstrip_space rest else l
  | [] => []
  end.

Definition strip_space (l : list ascii) : list ascii :=
  rev (lstrip_space (rev (lstrip_space l))).

(** Decimal digits, with single underscores allowed between two digits. *)
Fixpoint digits_value (acc : Z) (after_digit : bool) (l : list ascii) : option Z :=
  match l with
  | [] => if after_digit then Some acc else None
  | c :: rest =>
      if Ascii.eqb c "_"%char then
        if after_digit then digits_value acc false rest else None
      else
        match digit_of c with
        | Some d => digits_value (10 * acc + d) true rest
        | None => None
        end
  end.

Definition is_decimal_digit (c : ascii) : bool :=
  match digit_of c with Some _ => true | None => false end.

(** [sys.int_max_str_digits]: a string with more digits is refused. *)
Definition int_max_str_digits : nat := 4300.

(** [int(s)] for a string of ASCII text: surrounding whitespace, an
    optional sign, then the digits, at most [int_max_str_digits] of
    them.  Text beyond ASCII is outside the model ([int] also reads the
    digits and spaces of other scripts): a theorem that relies on a
    string being refused assumes the string is ASCII. *)
Definition int_of_str (s : string) : option Z :=
  let text := strip_space (list_ascii_of_string s) in
  if Nat.ltb int_max_str_digits (List.length (filter is_decimal_digit text)) then None
  else
    match text with
    | c :: rest =>
        if Ascii.eqb c "+"%char then digits_value 0 false rest
        else if Ascii.eqb c "-"%char then option_map Z.opp (digits_value 0 false rest)
        else digits_value 0 false (c :: rest)
    | [] => None
    end.

Definition py_int (v : json) : result Z :=
  match v with
  | JInt z => Ok z
  | JBool b => Ok (if b then 1 else 0)
  | JStr s => match int_of_str s with Some z => Ok z | None => Raise ValueError end
  | JNull | JArr _ | JObj _ => Raise TypeError
  end.

(** *** Dictionary keys *)

(** The hashable values: [None], booleans, integers and strings. *)
Inductive key : Type :=
  | KNone
  | KBool (b : bool)
  | KInt (z : Z)
  | KStr (s : string).

(** Using a list or a dict as a key raises [TypeError] (unhashable). *)
Definition hash_key (v : json) : result key :=
  match v with
  | JNull => Ok KNone
  | JBool b => Ok (KBool b)
  | JInt z => Ok (KInt z)
  | JStr s => Ok (KStr s)
  | JArr _ | JObj _ => Raise TypeError
  end.

Definition key_num (k : key) : option Z :=
  match k with
  | KBool b => Some (if b then 1 else 0)
  | KInt z => Some z
  | _ => None
  end.

(** Python's [==] on keys: booleans are the integers 0 and 1. *)
Definition key_eqb (a b : key) : bool :=
  match a, b with
  | KNone, KNone => true
  | KStr s, KStr t => String.eqb s t
  | _, _ =>
      match key_num a, key_num b with
      | Some x, Some y => x =? y
      | _, _ => false
      end
  end.

(** [f"{k}"] *)
Definition py_str (k : key) : string :=
  match k with
  | KNone => "None"
  | KBool b => if b then "True" else "False"
  | KInt z => NilZero.string_of_int (Z.to_int z)
  | KStr s => s
  end.

(** *** Dictionaries *)

(** A [dict] in insertion order.  Assigning to a key that is already
    there keeps the key object and its position and replaces the value;
    a new key goes to the end. *)
Definition dict (V : Type) : Type := list (key * V).

Fixpoint dict_get {V : Type} (k : key) (d : dict V) : option V :=
  match d with
  | [] => None
  | (k', v) :: rest => if key_eqb k' k then Some v else dict_get k rest
  end.

Definition dict_get_default {V : Type} (k : key) (d : dict V) (default : V) : V :=
  match dict_get k d with Some v => v | None => default end.

(** [k in d] *)
Definition dict_mem {V : Type} (k : key) (d : dict V) : bool :=
  match dict_get k d with Some _ => true | None => false end.

(** [d[k] = v] *)
Fixpoint dict_set {V : Type} (k : key) (v : V) (d : dict V) : dict V :=
  match d with
  | [] => [(k, v)]
  | (k', v') :: rest =>
      if key_eqb k' k then (k', v) :: rest else (k', v') :: dict_set k v rest
  end.

(** No two entries have equal keys: what every Python dict satisfies. *)
Fixpoint dict_wf {V : Type} (d : dict V) : Prop :=
  match d with
  | [] => True
  | (k, _) :: rest => dict_get k rest = None /\ dict_wf rest
  end.

(** ** The inventory fetch *)

(** One entry of the returned mapping (the inner dict literal of lines
    159-167 and 171-174). *)
Record item : Type := {
  quantity : Z;
  icon_url : string;
  name : json;
  classid : key;
  tradable : bool;
  marketable : bool;
  tags : json
}.

(** The variables of [fetch_steam_inventory] that live across the pages. *)
Record state : Type := {
  asset_quantities : dict Z;
  all_descriptions : dict json;
  start_assetid : json;
  page_count : nat
}.

Definition initial_state : state :=
  {| asset_quantities := []; all_descriptions := [];
     start_assetid := JNull; page_count := 0 |}.

(** Line 119. *)
Definition asset_classid (asset : json) : result json :=
  py_get asset "classid" JNull.

(** Line 120: [int(asset.get('amount', 1))]. *)
Definition asset_amount (asset : json) : result Z :=
  amount <- py_get asset "amount" (JInt 1) ;; py_int amount.

(** Lines 119-121, one iteration of the loop over the assets. *)
Definition add_asset (quantities : dict Z) (asset : json) : result (dict Z) :=
  c <- asset_classid asset ;;
  q <- asset_amount asset ;;
  k <- hash_key c ;;
  Ok (dict_set k (dict_get_default k quantities 0 + q) quantities).

(** Lines 124-126, one iteration of the loop over the descriptions. *)
Definition add_description (descriptions : dict json) (desc : json)
  : result (dict json) :=
  c <- py_get desc "classid" JNull ;;
  k <- hash_key c ;;
  Ok (if dict_mem k descriptions then descriptions else dict_set k desc descriptions).

(** Lines 117-126: both loops of a page that has the two keys, on the two
    accumulators. *)
Definition accumulate_page (fields : list (string * json))
  (tables : dict Z * dict json) : result (dict Z * dict json) :=
  current_page_assets <- py_iter (obj_get_default "assets" JNull fields) ;;
  quantities <- foldM add_asset current_page_assets (fst tables) ;;
  descs <- py_iter (obj_get_default "descriptions" JNull fields) ;;
  descriptions <- foldM add_description descs (snd tables) ;;
  Ok (quantities, descriptions).

(** Line 128: [data.get('more_items') and data.get('last_assetid')]. *)
Definition continues (fields : list (string * json)) : bool :=
  py_truthy (obj_get_default "more_items" JNull fields) &&
  py_truthy (obj_get_default "last_assetid" JNull fields).

(** Line 134. *)
Definition reports_empty (fields : list (string * json)) : bool :=
  py_eq_int (obj_get_default "total_inventory_count" (JInt 0) fields) 0 &&
  negb (py_truthy (obj_get_default "assets" JNull fields)).

(** What one request yields: an exception raised by [requests.get],
    [raise_for_status] or [response.json()], or the decoded body. *)
Inductive reply : Type :=
  | Raises (e : exn)
  | Body (data : json).

(** How one iteration of the [while] loop ends when nothing is raised. *)
Inductive step : Type :=
  | Return (status : string)
  | Next (st : state) (more_items : bool).

(** The body of the [try] (lines 109-139); [st] already has the
    incremented [page_count]. *)
Definition try_body (r : reply) (st : state) : result step :=
  match r with
  | Raises e => Raise e
  | Body data =>
      match data with
      | JObj fields =>
          if obj_has "assets" fields && obj_has "descriptions" fields then
            tables <- accumulate_page fields (asset_quantities st, all_descriptions st) ;;
            Ok (Next {| asset_quantities := fst tables;
                        all_descriptions := snd tables;
                        start_assetid :=
                          if continues fields
                          then obj_get_default "last_assetid" JNull fields
                          else start_assetid st;
                        page_count := page_count st |}
                     (continues fields))
          else if reports_empty fields then Ok (Return "inventory_empty")
          else if Nat.eqb (page_count st) 1 then Ok (Return "inventory_private_or_error")
          else Ok (Next st false)
      | _ => Ok (Return "inventory_private_or_empty")
      end
  end.

(** The [except] clauses of lines 141-146, tried in order; [None] when no
    clause matches and the exception leaves the function. *)
Definition handler (e : exn) : option string :=
  if isinstance_Timeout e then Some "request_timeout"
  else if isinstance_RequestException e then Some "network_error"
  else if isinstance_ValueError e then Some "api_decode_error"
  else None.

(** How the [while] loop is left. *)
Inductive loop_exit : Type :=
  | Exit_return (status : string)
  | Exit_raise (e : exn)
  | Exit_done (st : state).

(** The [while more_items] loop.  The replies of the endpoint are given in
    the order of the requests; the loop makes one request per iteration.
    [None] only when the replies run out while the loop would go on. *)
Fixpoint paginate (replies : list reply) (st : state) : option loop_exit :=
  match replies with
  | [] => None
  | r :: rest =>
      let st1 := {| asset_quantities := asset_quantities st;
                    all_descriptions := all_descriptions st;
                    start_assetid := start_assetid st;
                    page_count := S (page_count st) |} in
      match try_body r st1 with
      | Raise e =>
          match handler e with
          | Some status => Some (Exit_return status)
          | None => Some (Exit_raise e)
          end
      | Ok (Return status) => Some (Exit_return status)
      | Ok (Next st2 true) => paginate rest st2
      | Ok (Next st2 false) => Some (Exit_done st2)
      end
  end.

(** *** The join by market hash name (lines 148-175) *)

(** [s.lstrip('/')] *)
Fixpoint lstrip_slash (s : string) : string :=
  match s with
  | String c rest => if Ascii.eqb c "/"%char then lstrip_slash rest else s
  | EmptyString => EmptyString
  end.

(** Line 151: the description's [market_hash_name], else its [name], else
    the synthesized string. *)
Definition market_hash_name_of (desc_obj : json) (c : key) : result json :=
  fallback <- py_get desc_obj "name" (JStr ("Unknown Item " ++ py_str c)) ;;
  py_get desc_obj "market_hash_name" fallback.

(** Lines 152-156. *)
Definition full_icon_url_of (desc_obj : json) : result string :=
  icon_url_suffix <- py_get desc_obj "icon_url" (JStr "") ;;
  if py_truthy icon_url_suffix then
    match icon_url_suffix with
    | JStr s =>
        Ok ("https://community.cloudflare.steamstatic.com/economy/image/"
              ++ lstrip_slash s ++ "/120x50")
    | _ => Raise AttributeError
    end
  else Ok "".

(** The dict literal of lines 159-167. *)
Definition described_item (desc_obj : list (string * json)) (c : key)
  (full_icon_url : string) : item :=
  {| quantity := 0;
     icon_url := full_icon_url;
     name := obj_get_default "name" (JStr "Unknown Item") desc_obj;
     classid := c;
     tradable := py_eq_int (obj_get_default "tradable" (JInt 0) desc_obj) 1;
     marketable := py_eq_int (obj_get_default "marketable" (JInt 0) desc_obj) 1;
     tags := obj_get_default "tags" (JArr []) desc_obj |}.

(** Line 170. *)
Definition unknown_name (c : key) : string :=
  "Unknown Item (ClassID: " ++ py_str c ++ ")".

(** The dict literal of lines 171-174. *)
Definition undescribed_item (c : key) (q : Z) : item :=
  {| quantity := q; icon_url := ""; name := JStr (unknown_name c);
     classid := c; tradable := false; marketable := false; tags := JArr [] |}.

(** [d[k]['quantity'] += q] *)
Definition add_quantity (q : Z) (it : item) : item :=
  {| quantity := quantity it + q; icon_url := icon_url it; name := name it;
     classid := classid it; tradable := tradable it;
     marketable := marketable it; tags := tags it |}.

(** One iteration of the loop of line 148. *)
Definition join_step (descriptions : dict json) (detailed_items_data : dict item)
  (entry : key * Z) : result (dict item) :=
  let (c, q) := entry in
  match dict_get c descriptions with
  | Some desc_obj =>
      mhn <- market_hash_name_of desc_obj c ;;
      full_icon_url <- full_icon_url_of desc_obj ;;
      k <- hash_key mhn ;;
      match desc_obj with
      | JObj fields =>
          let it :=
            match dict_get k detailed_items_data with
            | Some it => it
            | None => described_item fields c full_icon_url
            end in
          Ok (dict_set k (add_quantity q it) detailed_items_data)
      | _ => Raise AttributeError
      end
  | None =>
      Ok (dict_set (KStr (unknown_name c)) (undescribed_item c q) detailed_items_data)
  end.

Definition join (quantities : dict Z) (descriptions : dict json) : result (dict item) :=
  foldM (join_step descriptions) quantities [].

(** What a call gives back: the mapping, one of the status strings, or an
    exception that no handler caught. *)
Inductive outcome : Type :=
  | Inventory (detailed_items_data : dict item)
  | Status (status : string)
  | Uncaught (e : exn).

(** [fetch_steam_inventory], against the replies of the endpoint.  The
    arguments [steam_id], [app_id] and [context_id] only shape the URL. *)
Definition fetch_steam_inventory (replies : list reply) : option outcome :=
  match paginate replies initial_state with
  | None => None
  | Some (Exit_return status) => Some (Status status)
  | Some (Exit_raise e) => Some (Uncaught e)
  | Some (Exit_done st) =>
      match join (asset_quantities st) (all_descriptions st) with
      | Ok detailed_items_data => Some (Inventory detailed_items_data)
      | Raise e => Some (Uncaught e)
      end
  end.

(** ** The differ *)

(** The [results] dict of [analyze_inventories_for_streamlit]. *)
Record results : Type := {
  fixed_user_tradable_duplicates : dict item;
  fixed_user_has_you_dont_dupes : dict item;
  you_have_fixed_user_doesnt_dupes : dict item
}.

(** [for item_hash, data in inv.items(): if keep(item_hash, data):
    out[item_hash] = data] *)
Definition collect (keep : key -> item -> bool) (inv : dict item) : dict item :=
  fold_left
    (fun out entry =>
       if keep (fst entry) (snd entry) then dict_set (fst entry) (snd entry) out
       else out)
    inv [].

Definition analyze_inventories_for_streamlit (fixed_user_inv your_inv : dict item)
  : results :=
  {| fixed_user_tradable_duplicates :=
       collect (fun _ data => (1 <? quantity data) && tradable data) fixed_user_inv;
     fixed_user_has_you_dont_dupes :=
       collect (fun item_hash data =>
                  (1 <? quantity data) && tradable data
                  && negb (dict_mem item_hash your_inv)) fixed_user_inv;
     you_have_fixed_user_doesnt_dupes :=
       collect (fun item_hash data =>
                  (1 <? quantity data) && tradable data
                  && negb (dict_mem item_hash fixed_user_inv)) your_inv |}.

(** ** Vocabulary of the specification *)

(** A page: the fields of one decoded response object. *)
Definition page : Type := list (string * json).

Definition replies_of (pages : list page) : list reply :=
  map (fun p => Body (JObj p)) pages.

Definition page_assets (p : page) : list json :=
  match obj_get "assets" p with Some (JArr assets) => assets | _ => [] end.

Definition page_descriptions (p : page) : list json :=
  match obj_get "descriptions" p with Some (JArr descs) => descs | _ => [] end.

Definition all_assets (pages : list page) : list json :=
  List.concat (map page_assets pages).

Definition all_page_descriptions (pages : list page) : list json :=
  List.concat (map page_descriptions pages).

Definition hashable (v : json) : bool :=
  match hash_key v with Ok _ => true | Raise _ => false end.

(** The classId of a record, as a dictionary key. *)
Definition record_key (record : json) : option key :=
  match record with
  | JObj fields =>
      match hash_key (obj_get_default "classid" JNull fields) with
      | Ok k => Some k
      | Raise _ => None
      end
  | _ => None
  end.

(** The integer value of a record's [amount] (1 when it has none). *)
Definition amount_value (asset : json) : option Z :=
  match asset_amount asset with Ok q => Some q | Raise _ => None end.

(** An asset record: an object whose [classid] can be a key and whose
    [amount] has an integer value. *)
Definition valid_asset (asset : json) : bool :=
  match record_key asset, amount_value asset with
  | Some _, Some _ => true
  | _, _ => false
  end.

(** A description record: an object whose [classid] can be a key. *)
Definition valid_description (desc : json) : bool :=
  match record_key desc with Some _ => true | None => false end.

(** A valid page carries a list of asset records and a list of
    description records. *)
Definition valid_page (p : page) : bool :=
  match obj_get "assets" p, obj_get "descriptions" p with
  | Some (JArr assets), Some (JArr descs) =>
      forallb valid_asset assets && forallb valid_description descs
  | _, _ => false
  end.

(** A description the join can read: its key field is hashable and its
    [icon_url] is a string or falsy. *)
Definition joinable_description (desc : json) : bool :=
  match desc with
  | JObj fields =>
      hashable (obj_get_default "market_hash_name"
                  (obj_get_default "name" JNull fields) fields)
      && (let icon := obj_get_default "icon_url" (JStr "") fields in
          negb (py_truthy icon) || match icon with JStr _ => true | _ => false end)
  | _ => false
  end.

Definition joinable_page (p : page) : bool :=
  forallb joinable_description (page_descriptions p).

Definition has_classid (c : key) (record : json) : bool :=
  match record_key record with Some k => key_eqb k c | None => false end.

Definition amount_or_zero (asset : json) : Z :=
  match amount_value asset with Some q => q | None => 0 end.

(** The sum of the amounts of the asset records with classId [c]. *)
Definition total_amount (c : key) (assets : list json) : Z :=
  fold_right Z.add 0 (map amount_or_zero (filter (has_classid c) assets)).

(** *** The integer an amount states *)

(** The integer a plain decimal numeral stands for (an optional minus
    sign, then at least one digit), as the standard library reads it;
    numerals of more than [int_max_str_digits] characters are left
    out. *)
Definition numeral_value (s : string) : option Z :=
  if Nat.leb (String.length s) int_max_str_digits
  then option_map Z.of_int (NilZero.int_of_string s)
  else None.

(** The integer value of the [amount] field of an asset record: the
    number itself, or the one its numeral stands for; a record without
    the field counts 1. *)
Definition stated_amount (asset : json) : option Z :=
  match asset with
  | JObj fields =>
      match obj_get "amount" fields with
      | None => Some 1
      | Some (JInt z) => Some z
      | Some (JStr s) => numeral_value s
      | Some _ => None
      end
  | _ => None
  end.

(** An asset record whose [classid] can be a key and whose [amount]
    states an integer. *)
Definition well_formed_asset (asset : json) : bool :=
  match record_key asset, stated_amount asset with
  | Some _, Some _ => true
  | _, _ => false
  end.

Definition well_formed_page (p : page) : bool :=
  match obj_get "assets" p, obj_get "descriptions" p with
  | Some (JArr assets), Some (JArr descs) =>
      forallb well_formed_asset assets && forallb valid_description descs
  | _, _ => false
  end.

(** The sum of the stated amounts of the asset records with classId
    [c]. *)
Definition stated_total (c : key) (assets : list json) : Z :=
  fold_right Z.add 0
    (map (fun asset => match stated_amount asset with Some z => z | None => 0 end)
       (filter (has_classid c) assets)).

(** The value of a digit sequence, most significant digit first. *)
Fixpoint horner (acc : Z) (d : Decimal.uint) : Z :=
  match d with
  | Decimal.Nil => acc
  | Decimal.D0 d' => horner (10 * acc) d'
  | Decimal.D1 d' => horner (10 * acc + 1) d'
  | Decimal.D2 d' => horner (10 * acc + 2) d'
  | Decimal.D3 d' => horner (10 * acc + 3) d'
  | Decimal.D4 d' => horner (10 * acc + 4) d'
  | Decimal.D5 d' => horner (10 * acc + 5) d'
  | Decimal.D6 d' => horner (10 * acc + 6) d'
  | Decimal.D7 d' => horner (10 * acc + 7) d'
  | Decimal.D8 d' => horner (10 * acc + 8) d'
  | Decimal.D9 d' => horner (10 * acc + 9) d'
  end.

(** The pages one call fetches: every page but the last announces a next
    one (line 128), the last does not. *)
Fixpoint paginated (pages : list page) : bool :=
  match pages with
  | [] => false
  | [p] => negb (continues p)
  | p :: rest => continues p && paginated rest
  end.

(** The two accumulators of a state. *)
Definition tables_of (st : state) : dict Z * dict json :=
  (asset_quantities st, all_descriptions st).

(** Accumulating the pages from empty tables and joining them. *)
Definition aggregate (pages : list page) : result (dict item) :=
  tables <- foldM (fun t p => accumulate_page p t) pages ([], []) ;;
  join (fst tables) (snd tables).

(** The response lacks at least one of the two keys. *)
Definition lacks_keys (p : page) : bool :=
  negb (obj_has "assets" p && obj_has "descriptions" p).

(** The response carries a [total_inventory_count] field equal to zero. *)
Definition reports_zero_total (p : page) : bool :=
  match obj_get "total_inventory_count" p with
  | Some v => py_eq_int v 0
  | None => false
  end.

(** The response has no assets: no [assets] field, or a falsy one. *)
Definition no_assets (p : page) : bool :=
  negb (py_truthy (obj_get_default "assets" JNull p)).

(** The response carries no [total_inventory_count], or one equal to
    zero. *)
Definition absent_or_zero_total (p : page) : bool :=
  negb (obj_has "total_inventory_count" p) || reports_zero_total p.

(** The three outcomes for a response without the two keys, with "the
    response reports zero total inventory count" read as
    [reports_zero_total]: the field is there and is zero. *)
Definition missing_keys_rule_as_stated : Prop :=
  forall (pre : list page) (p : page) (rest : list reply),
    forallb valid_page pre = true ->
    forallb continues pre = true ->
    forallb joinable_page pre = true ->
    lacks_keys p = true ->
    let out := fetch_steam_inventory (replies_of pre ++ Body (JObj p) :: rest) in
    (reports_zero_total p && no_assets p = true ->
     out = Some (Status "inventory_empty")) /\
    (reports_zero_total p && no_assets p = false -> pre = [] ->
     out = Some (Status "inventory_private_or_error")) /\
    (reports_zero_total p && no_assets p = false -> pre <> [] ->
     exists inv, aggregate pre = Ok inv /\ out = Some (Inventory inv)).





(** What [response.json()] raises on a body that is not JSON: since
    requests 2.27 it wraps the decoder's error in
    [requests.exceptions.JSONDecodeError]. *)
Definition body_not_json : reply := Raises RequestsJSONDecodeError.

(** ** Sample responses *)

Definition asset_record (c amount : string) : json :=
  JObj [("classid", JStr c); ("amount", JStr amount)].

Definition description_record (c market_hash_name display_name : string) : json :=
  JObj [("classid", JStr c); ("market_hash_name", JStr market_hash_name);
        ("name", JStr display_name); ("icon_url", JStr "/abc");
        ("tradable", JInt 1); ("marketable", JInt 0)].

(** A first page that announces a second one. *)
Definition sample_page_1 : page :=
  [("assets", JArr [asset_record "1" "2"; JObj [("classid", JStr "7")];
                    asset_record "1" " 4 "]);
   ("descriptions", JArr [description_record "1" "Widget" "A"]);
   ("more_items", JInt 1); ("last_assetid", JStr "900");
   ("total_inventory_count", JInt 4)].

(** A last page; it describes classId 1 again, under another name. *)
Definition sample_page_2 : page :=
  [("assets", JArr [asset_record "1" "3"]);
   ("descriptions", JArr [description_record "1" "Gadget" "B";
                          description_record "7" "Bolt" "Bolt"]);
   ("total_inventory_count", JInt 4)].

Definition sample_pages : list page := [sample_page_1; sample_page_2].

(** Two pages whose amounts are numbers or plain numerals; one record of
    classId 1 has no amount. *)
Definition counted_page_1 : page :=
  [("assets", JArr [asset_record "1" "2"; JObj [("classid", JStr "1")];
                    asset_record "7" "5"]);
   ("descriptions", JArr [description_record "1" "Widget" "A"]);
   ("more_items", JInt 1); ("last_assetid", JStr "900")].

Definition counted_page_2 : page :=
  [("assets", JArr [asset_record "1" "3";
                    JObj [("classid", JStr "1"); ("amount", JInt 4)]]);
   ("descriptions", JArr [])].

Definition counted_pages : list page := [counted_page_1; counted_page_2].

(** What the fetch returns for [sample_pages]. *)
Definition sample_widget : item :=
  {| quantity := 9;
     icon_url := "https://community.cloudflare.steamstatic.com/economy/image/abc/120x50";
     name := JStr "A"; classid := KStr "1"; tradable := true;
     marketable := false; tags := JArr [] |}.

Definition sample_bolt : item :=
  {| quantity := 1;
     icon_url := "https://community.cloudflare.steamstatic.com/economy/image/abc/120x50";
     name := JStr "Bolt"; classid := KStr "7"; tradable := true;
     marketable := false; tags := JArr [] |}.

Definition sample_inventory : dict item :=
  [(KStr "Widget", sample_widget); (KStr "Bolt", sample_bolt)].

(** A page whose only description gives classId 1 the market hash name
    that the join synthesizes for the undescribed classId 2. *)
Definition colliding_page : page :=
  [("assets", JArr [asset_record "1" "2"; asset_record "2" "3"]);
   ("descriptions",
    JArr [description_record "1" "Unknown Item (ClassID: 2)" "Widget"])].




(** Two inventories for the differ: the owner holds nine tradable Widgets
    and one Bolt, the counterpart holds Widgets and two tradable Nuts. *)
Definition sample_nut : item :=
  {| quantity := 2; icon_url := ""; name := JStr "Nut"; classid := KStr "8";
     tradable := true; marketable := true; tags := JArr [] |}.

Definition sample_counterpart : dict item :=
  [(KStr "Widget", sample_widget); (KStr "Nut", sample_nut)].

(** ** The store and profile lookups *)

(** What can leave the other functions: the exceptions above and three
    more. *)
Inductive failure : Type :=
  | Exn (e : exn)
  | KeyError
  | IndexError
  | ZeroDivisionError.

Inductive attempt (A : Type) : Type :=
  | Done (a : A)
  | Failed (f : failure).
Arguments Done {A} a.
Arguments Failed {A} f.

Definition attempt_bind {A B : Type} (m : attempt A) (f : A -> attempt B) : attempt B :=
  match m with
  | Done a => f a
  | Failed e => Failed e
  end.

Notation "x <~ m ;; k" := (attempt_bind m (fun x => k))
  (at level 61, m at next level, right associativity).

Definition lift {A : Type} (r : result A) : attempt A :=
  match r with
  | Ok a => Done a
  | Raise e => Failed (Exn e)
  end.

(** [container[0]] *)
Definition py_first (v : json) : attempt json :=
  match v with
  | JArr (x :: _) => Done x
  | JArr [] => Failed IndexError
  | JStr (String c _) => Done (JStr (String c EmptyString))
  | JStr EmptyString => Failed IndexError
  | JObj _ => Failed KeyError
  | JNull | JBool _ | JInt _ => Failed (Exn TypeError)
  end.

(** [container[field]] for a string [field]: only a dict is indexed by
    strings. *)
Definition py_item (v : json) (field : string) : attempt json :=
  match v with
  | JObj fields =>
      match obj_get field fields with
      | Some x => Done x
      | None => Failed KeyError
      end
  | _ => Failed (Exn TypeError)
  end.

(** [text in container] for a string [text]: a key of a dict, an element
    of a list, a substring of a string. *)
Definition py_contains (text : string) (v : json) : attempt bool :=
  match v with
  | JObj fields => Done (obj_has text fields)
  | JArr items =>
      Done (existsb (fun x => match x with
                              | JStr s => String.eqb s text
                              | _ => false
                              end) items)
  | JStr s => Done (match index 0 text s with Some _ => true | None => false end)
  | JNull | JBool _ | JInt _ => Failed (Exn TypeError)
  end.

Definition default_game_name (app_id : string) : json :=
  JStr ("Game with App ID " ++ app_id).

(** The [try] block of [get_game_name] (lines 49-53); [None] when it
    falls through to the last [return].  [app_id] is a string, as
    [GAME_APP_ID] is. *)
Definition game_name_body (app_id : string) (r : reply) : attempt (option json) :=
  match r with
  | Raises e => Failed (Exn e)
  | Body data =>
      if py_truthy data then
        present <~ py_contains app_id data ;;
        if present then
          entry <~ py_item data app_id ;;
          success <~ lift (py_get entry "success" JNull) ;;
          if py_truthy success then
            details <~ py_item entry "data" ;;
            game <~ lift (py_get details "name" (default_game_name app_id)) ;;
            Done (Some game)
          else Done None
        else Done None
      else Done None
  end.

(** [get_game_name], against the reply of the store (caching aside). *)
Definition get_game_name (app_id : string) (r : reply) : attempt json :=
  match game_name_body app_id r with
  | Done (Some game) => Done game
  | Done None => Done (default_game_name app_id)
  | Failed (Exn e) =>
      if isinstance_RequestException e then Done (default_game_name app_id)
      else Failed (Exn e)
  | Failed f => Failed f
  end.

(** The dict [get_steam_user_info] returns; [error] is [None] when the
    dict has no such key. *)
Record user_info : Type := {
  personaname : json;
  avatarfull : json;
  profileurl : json;
  error : option string
}.

Definition default_user_info (steam_id err : string) : user_info :=
  {| personaname := JStr ("User " ++ steam_id);
     avatarfull := JStr "";
     profileurl := JStr ("https://steamcommunity.com/profiles/" ++ steam_id);
     error := Some err |}.

(** The [try] block of [get_steam_user_info] (lines 67-76). *)
Definition user_info_body (steam_id : string) (r : reply) : attempt (option user_info) :=
  match r with
  | Raises e => Failed (Exn e)
  | Body data =>
      response <~ lift (py_get data "response" (JObj [])) ;;
      players <~ lift (py_get response "players" JNull) ;;
      if py_truthy players then
        response' <~ py_item data "response" ;;
        players' <~ py_item response' "players" ;;
        player <~ py_first players' ;;
        pname <~ lift (py_get player "personaname" (JStr ("User " ++ steam_id))) ;;
        avatar <~ lift (py_get player "avatarfull" (JStr "")) ;;
        url <~ lift (py_get player "profileurl"
                       (JStr ("https://steamcommunity.com/profiles/" ++ steam_id))) ;;
        Done (Some {| personaname := pname; avatarfull := avatar;
                      profileurl := url; error := None |})
      else Done None
  end.

(** [get_steam_user_info], for the key [get_steam_api_key] gives ([None]
    when the secret is missing) and the reply of the profile service.
    Both [except] clauses pass, so every failure of the [try] block ends
    in the last [return]. *)
Definition get_steam_user_info (api_key : option string) (steam_id : string)
  (r : reply) : user_info :=
  match api_key with
  | None | Some EmptyString => default_user_info steam_id "API Key not configured"
  | Some _ =>
      match user_info_body steam_id r with
      | Done (Some info) => info
      | Done None | Failed _ => default_user_info steam_id "Profile fetch failed"
      end
  end.

(** The first player of a profile reply: the body is an object whose
    [response] is an object whose [players] is a list that starts with
    an object. *)
Definition first_player (r : reply) : option (list (string * json)) :=
  match r with
  | Body (JObj fields) =>
      match obj_get "response" fields with
      | Some (JObj response) =>
          match obj_get "players" response with
          | Some (JArr (JObj player :: _)) => Some player
          | _ => None
          end
      | _ => None
      end
  | _ => None
  end.

(** A profile reply with one player, and one whose list of players is
    empty. *)
Definition sample_profile_reply : reply :=
  Body (JObj [("response",
               JObj [("players",
                      JArr [JObj [("steamid", JStr "76561197989676140");
                                  ("personaname", JStr "Player One");
                                  ("avatarfull", JStr "https://avatars/full.jpg")]])])]).

Definition empty_profile_reply : reply :=
  Body (JObj [("response", JObj [("players", JArr [])])]).

(** ** The item grid *)

(** The cells of one row: a card, or a column left empty. *)
Definition grid_row : Type := list (option (key * item)).

(** What [display_item_grid] shows. *)
Inductive grid : Type :=
  | No_items
  | Rows (rows : list grid_row).

(** [display_item_grid] from line 210 on, for the list [sorted_items] of
    line 208 (the entries of the mapping sorted by name; it is empty
    exactly when the mapping is, which line 204 tests).  [num_columns]
    is a natural number: every call uses the default 5. *)
Definition display_item_grid (sorted_items : list (key * item)) (num_columns : nat)
  : attempt grid :=
  match sorted_items with
  | [] => Done No_items
  | _ =>
      let num_items := List.length sorted_items in
      if Nat.eqb num_columns 0 then Failed ZeroDivisionError
      else
        let num_rows := Nat.div (num_items + num_columns - 1) num_columns in
        Done (Rows
                (map (fun i =>
                        map (fun j =>
                               let item_index := (i * num_columns + j)%nat in
                               if Nat.ltb item_index num_items
                               then nth_error sorted_items item_index
                               else None)
                          (seq 0 num_columns))
                   (seq 0 num_rows)))
  end.

(** The cards of a grid, row by row. *)
Definition cards (g : grid) : list (key * item) :=
  match g with
  | No_items => []
  | Rows rows =>
      flat_map (fun row => flat_map (fun cell => match cell with
                                                 | Some card => [card]
                                                 | None => []
                                                 end) row) rows
  end.

(** *** Sorting by name (line 208) *)

(** What runs on the page either completes, or ends with an exception,
    or is left out of the model ([None]). *)
Definition page_bind {A B : Type} (m : option (attempt A))
  (f : A -> option (attempt B)) : option (attempt B) :=
  match m with
  | Some (Done a) => f a
  | Some (Failed e) => Some (Failed e)
  | None => None
  end.

Notation "x <~~ m ;; k" := (page_bind m (fun x => k))
  (at level 61, m at next level, right associativity).

Definition is_text (v : json) : bool :=
  match v with JStr _ => true | _ => false end.

Definition is_number (v : json) : bool :=
  match v with JInt _ | JBool _ => true | _ => false end.

Definition is_list (v : json) : bool :=
  match v with JArr _ => true | _ => false end.

(** [a < b] on two strings (by character) or two numbers ([True] is 1
    and [False] is 0); between other values the comparison is not
    used. *)
Definition name_lt (a b : json) : bool :=
  match a, b with
  | JStr s, JStr t => String.ltb s t
  | JInt x, JInt y => x <? y
  | JInt x, JBool c => x <? (if c then 1 else 0)
  | JBool b, JInt y => (if b then 1 else 0) <? y
  | JBool b, JBool c => (if b then 1 else 0) <? (if c then 1 else 0)
  | _, _ => false
  end.

(** Stable insertion: [entry] came before every element of [sorted] and
    stays before those with an equal name. *)
Fixpoint insert_by_name (entry : key * item) (sorted : list (key * item))
  : list (key * item) :=
  match sorted with
  | [] => [entry]
  | other :: rest =>
      if name_lt (name (snd other)) (name (snd entry))
      then other :: insert_by_name entry rest
      else entry :: other :: rest
  end.

(** [sorted(items_dict.items(), key=lambda x: x[1]['name'])].  The sort is
    stable and uses [<] alone.  With fewer than two entries nothing is
    compared.  With two or more, every entry is compared with another
    one: names that are all strings, or all numbers, are ordered; a name
    that is null or an object, or names of different kinds, raise
    [TypeError]; names that are all lists are left out ([None]), since
    whether their elements compare depends on the pairs the sort
    visits. *)
Definition sorted_by_name (items : list (key * item))
  : option (attempt (list (key * item))) :=
  match items with
  | [] | [_] => Some (Done items)
  | _ =>
      let names := map (fun entry => name (snd entry)) items in
      if forallb is_text names || forallb is_number names
      then Some (Done (fold_right insert_by_name [] items))
      else if forallb is_list names then None
      else Some (Failed (Exn TypeError))
  end.

(** A list in the order of the names: no entry is below the one before
    it. *)
Definition name_ordered (l : list (key * item)) : Prop :=
  Sorted (fun a b => name_lt (name (snd b)) (name (snd a)) = false) l.

(** [display_item_grid(items_dict)] as the page calls it (lines 203-227):
    the test of line 204, the sort of line 208 and the grid with the
    default five columns. *)
Definition display_items_dict (items_dict : dict item) : option (attempt grid) :=
  match items_dict with
  | [] => Some (Done No_items)
  | _ =>
      sorted_items <~~ sorted_by_name items_dict ;;
      Some (display_item_grid sorted_items 5)
  end.

(** ** The analysis page *)

Fixpoint string_map (f : ascii -> ascii) (s : string) : string :=
  match s with
  | EmptyString => EmptyString
  | String c rest => String (f c) (string_map f rest)
  end.

Definition ascii_upper (c : ascii) : ascii :=
  let n := nat_of_ascii c in
  if ((97 <=? n) && (n <=? 122))%nat then ascii_of_nat (n - 32) else c.

Definition ascii_lower (c : ascii) : ascii :=
  let n := nat_of_ascii c in
  if ((65 <=? n) && (n <=? 90))%nat then ascii_of_nat (n + 32) else c.

(** [s.replace(old, new)] for single characters. *)
Definition py_replace (old new : ascii) (s : string) : string :=
  string_map (fun c => if Ascii.eqb c old then new else c) s.

(** [s.capitalize()], on ASCII letters (the status strings are ASCII). *)
Definition py_capitalize (s : string) : string :=
  match s with
  | EmptyString => EmptyString
  | String c rest => String (ascii_upper c) (string_map ascii_lower rest)
  end.

(** The calls that put something on the page, in the order they are made
    (the columns they are placed in are not recorded).  A profile card
    and a grid are recorded with what they show. *)
Inductive ui : Type :=
  | St_error (msg : string)
  | St_warning (msg : string)
  | St_info (msg : string)
  | St_success (msg : string)
  | St_header (txt : string)
  | St_subheader (txt : string)
  | St_write (txt : string)
  | St_rule
  | Profile (info : user_info) (trade_offer_link : bool)
  | Display_item_grid (items_dict : dict item).

(** Lines 256-263 and 277-284: what is shown for the result of one
    fetch, and the inventory kept for the analysis.  [who] is ["My"] or
    ["Your"]. *)
Definition load_inventory (who : string) (fetched : outcome)
  : attempt (list ui * option (dict item)) :=
  match fetched with
  | Uncaught e => Failed (Exn e)
  | Status status =>
      Done ([St_error ("Could not load " ++ who ++ " inventory: "
                         ++ py_capitalize (py_replace "_" " " status) ++ ".")],
            None)
  | Inventory [] =>
      Done ([St_info (who ++ " inventory is empty or could not be loaded.")], None)
  | Inventory inv => Done ([St_success (who ++ " inventory loaded.")], Some inv)
  end.

(** Lines 233-237. *)
Definition profile_notice (your_user_info : user_info) : list ui :=
  match error your_user_info with
  | Some err =>
      if String.eqb err "API Key not configured" then
        [St_error "The Steam Web API Key is not configured for this app. Your profile information cannot be fully loaded."]
      else if String.eqb err "" then []
      else [St_warning ("Could not load Your profile details: " ++ err)]
  | None => []
  end.

(** Lines 286-312.  A call of [display_item_grid] that raises ends the
    page: the calls after it are not made. *)
Definition verdict (inventory_owner inventory_you : option (dict item))
  : option (attempt (list ui)) :=
  match inventory_owner, inventory_you with
  | Some owner, Some you =>
      let analysis_results := analyze_inventories_for_streamlit owner you in
      _ <~~ display_items_dict (fixed_user_has_you_dont_dupes analysis_results) ;;
      _ <~~ display_items_dict (you_have_fixed_user_doesnt_dupes analysis_results) ;;
      _ <~~ display_items_dict (fixed_user_tradable_duplicates analysis_results) ;;
      Some (Done
        [St_rule; St_header "Trade Opportunities";
         St_subheader "Items I have (duplicates, tradable) that YOU DON'T have:";
         Display_item_grid (fixed_user_has_you_dont_dupes analysis_results);
         St_subheader "Items YOU have (duplicates, tradable) that I DON'T have:";
         Display_item_grid (you_have_fixed_user_doesnt_dupes analysis_results);
         St_rule; St_header "My Tradable Duplicates";
         St_write "All items in My inventory that I have more than one of and are tradable:";
         Display_item_grid (fixed_user_tradable_duplicates analysis_results)])
  | None, None =>
      Some (Done [St_info "Could not load inventories for analysis. Please check SteamIDs and profile privacy settings."])
  | None, Some _ =>
      Some (Done [St_error "Could not load My inventory. Analysis cannot proceed."])
  | Some _, None =>
      Some (Done [St_error "Could not load Your inventory. Analysis cannot proceed."])
  end.

(** [run_inventory_analysis], for the profile [get_steam_user_info]
    gives for the partner and the results of the two calls of
    [fetch_steam_inventory], the owner's first.  An exception that
    leaves a fetch or a grid leaves the function; the result is the page
    of a run that completes. *)
Definition run_inventory_analysis (your_user_info current_fixed_user_info : user_info)
  (inventory_owner_result inventory_you_result : outcome)
  : option (attempt (list ui)) :=
  owner <~~ Some (load_inventory "My" inventory_owner_result) ;;
  you <~~ Some (load_inventory "Your" inventory_you_result) ;;
  analysis <~~ verdict (snd owner) (snd you) ;;
  Some (Done (profile_notice your_user_info
                ++ [St_subheader "Me"; Profile current_fixed_user_info true]
                ++ fst owner
                ++ [St_subheader "You"; Profile your_user_info false]
                ++ fst you
                ++ analysis)%list).

(** The grids a page shows. *)
Definition displayed_grids (page : list ui) : list (dict item) :=
  flat_map (fun call => match call with
                        | Display_item_grid d => [d]
                        | _ => []
                        end) page.

(** ** The Steam login *)

(** The text of the login is ASCII text: digits, spaces and letters
    beyond ASCII are outside the model. *)
Fixpoint ascii_only (s : string) : bool :=
  match s with
  | EmptyString => true
  | String c rest => (nat_of_ascii c <? 128)%nat && ascii_only rest
  end.

Definition is_digit (c : ascii) : bool :=
  let n := nat_of_ascii c in ((48 <=? n) && (n <=? 57))%nat.

Fixpoint all_digits (s : string) : bool :=
  match s with
  | EmptyString => true
  | String c rest => is_digit c && all_digits rest
  end.

(** [s.isdigit()], on ASCII. *)
Definition isdigit (s : string) : bool :=
  match s with
  | EmptyString => false
  | _ => all_digits s
  end.

(** Lines 445 and 515: [s.isdigit() and len(s) == 17]. *)
Definition valid_steam_id (s : string) : bool :=
  isdigit s && Nat.eqb (String.length s) 17.

(** The pattern of line 406, up to its group: every character stands for
    itself but the dot, which stands for any character except a
    newline. *)
Definition claimed_id_prefix : string := "https://steamcommunity.com/openid/id/".

Definition matches_char (p c : ascii) : bool :=
  if Ascii.eqb p "."%char then negb (Ascii.eqb c "010"%char) else Ascii.eqb p c.

Fixpoint match_prefix (pattern s : string) : option string :=
  match pattern with
  | EmptyString => Some s
  | String p pattern' =>
      match s with
      | String c s' => if matches_char p c then match_prefix pattern' s' else None
      | EmptyString => None
      end
  end.

(** The longest run of digits [s] starts with: what [(\d+)] takes, on
    ASCII. *)
Fixpoint take_digits (s : string) : string :=
  match s with
  | String c rest => if is_digit c then String c (take_digits rest) else EmptyString
  | EmptyString => EmptyString
  end.

(** A match that starts at the first character of [s]: its group. *)
Definition match_here (s : string) : option string :=
  match match_prefix claimed_id_prefix s with
  | Some rest =>
      match take_digits rest with
      | EmptyString => None
      | digits => Some digits
      end
  | None => None
  end.

(** [re.search(pattern, s)]: the leftmost match; its group 1. *)
Fixpoint search_claimed_id (s : string) : option string :=
  match match_here s with
  | Some digits => Some digits
  | None =>
      match s with
      | String _ rest => search_claimed_id rest
      | EmptyString => None
      end
  end.

(** A query parameter: one string, or a list of strings. *)
Inductive param : Type :=
  | One (value : string)
  | Many (values : list string).

(** Lines 394-395 and 402-403: [raw[0] if isinstance(raw, list) else raw]
    under [if raw:]. *)
Definition first_value (raw : option param) : option string :=
  match raw with
  | Some (One EmptyString) => None
  | Some (One value) => Some value
  | Some (Many (value :: _)) => Some value
  | Some (Many []) | None => None
  end.

Definition ascii_param (raw : option param) : bool :=
  match raw with
  | Some (One value) => ascii_only value
  | Some (Many values) => forallb ascii_only values
  | None => true
  end.

(** The session variables of the login ([last_analysis_timestamp], a
    clock reading, is left out). *)
Record session : Type := {
  queried_steam_id : option string;
  analysis_triggered_once : bool;
  initiate_auto_analysis : bool;
  last_analyzed_id : option string;
  show_login_error : bool
}.

(** How the processing of the callback ends: the script goes on, with
    the query parameters cleared or not, or it is run again. *)
Inductive flow : Type :=
  | Goes_on (query_cleared : bool)
  | Rerun.

(** Lines 397-428: the OpenID callback. *)
Definition openid_callback (openid_mode claimed_id : option param) (s : session)
  : session * flow :=
  match first_value openid_mode with
  | Some EmptyString | None => (s, Goes_on false)
  | Some current_openid_mode =>
      if String.eqb current_openid_mode "id_res" then
        match
          match first_value claimed_id with
          | Some EmptyString | None => None
          | Some actual_claimed_id_str => search_claimed_id actual_claimed_id_str
          end
        with
        | Some steam_id_64 =>
            ({| queried_steam_id := Some steam_id_64;
                analysis_triggered_once := analysis_triggered_once s;
                initiate_auto_analysis := true;
                last_analyzed_id := last_analyzed_id s;
                show_login_error := false |}, Goes_on true)
        | None =>
            ({| queried_steam_id := None;
                analysis_triggered_once := analysis_triggered_once s;
                initiate_auto_analysis := false;
                last_analyzed_id := last_analyzed_id s;
                show_login_error := true |}, Goes_on true)
        end
      else if String.eqb current_openid_mode "cancel" then
        ({| queried_steam_id := queried_steam_id s;
            analysis_triggered_once := analysis_triggered_once s;
            initiate_auto_analysis := initiate_auto_analysis s;
            last_analyzed_id := last_analyzed_id s;
            show_login_error := true |}, Rerun)
      else (s, Goes_on false)
  end.

(** Lines 440-453: the trigger of the analysis. *)
Definition auto_analysis (s : session) : session * list ui :=
  match queried_steam_id s with
  | Some trade_partner_id_for_analysis =>
      if initiate_auto_analysis s
         && negb (String.eqb trade_partner_id_for_analysis "") then
        if valid_steam_id trade_partner_id_for_analysis then
          ({| queried_steam_id := queried_steam_id s;
              analysis_triggered_once := true;
              initiate_auto_analysis := false;
              last_analyzed_id := Some trade_partner_id_for_analysis;
              show_login_error := show_login_error s |}, [])
        else
          ({| queried_steam_id := None;
              analysis_triggered_once := false;
              initiate_auto_analysis := false;
              last_analyzed_id := last_analyzed_id s;
              show_login_error := show_login_error s |},
           [St_error ("Invalid SteamID format received: '"
                        ++ trade_partner_id_for_analysis
                        ++ "'. Please provide a valid 64-bit SteamID.")])
      else (s, [])
  | None => (s, [])
  end.

(** The callback, then the trigger, when the script goes on. *)
Definition login (openid_mode claimed_id : option param) (s : session)
  : session * list ui * flow :=
  match openid_callback openid_mode claimed_id s with
  | (s1, Rerun) => (s1, [], Rerun)
  | (s1, Goes_on cleared) =>
      (fst (auto_analysis s1), snd (auto_analysis s1), Goes_on cleared)
  end.

Definition ascii_session (s : session) : bool :=
  match queried_steam_id s with
  | Some id => ascii_only id
  | None => true
  end.

(** The session at the start of a visit (lines 369-380). *)
Definition new_session : session :=
  {| queried_steam_id := None; analysis_triggered_once := false;
     initiate_auto_analysis := false; last_analyzed_id := None;
     show_login_error := false |}.

(** ** Vocabulary for the join and the differ *)

(** The status strings a call can return. *)
Definition status_strings : list string :=
  ["inventory_private_or_empty"; "inventory_empty"; "inventory_private_or_error";
   "request_timeout"; "network_error"; "api_decode_error"].

(** The key under which the join files classId [c]. *)
Definition join_key (descriptions : dict json) (c : key) : option key :=
  match dict_get c descriptions with
  | Some desc_obj =>
      match market_hash_name_of desc_obj c with
      | Ok mhn => match hash_key mhn with Ok k => Some k | Raise _ => None end
      | Raise _ => None
      end
  | None => Some (KStr (unknown_name c))
  end.

(** The entry classId [c] resolves to key [k]. *)
Definition resolves_to (descriptions : dict json) (k : key) (entry : key * Z) : bool :=
  match join_key descriptions (fst entry) with
  | Some k' => key_eqb k' k
  | None => false
  end.

(** The quantities of the classIds that resolve to [k], summed. *)
Definition merged_quantity (descriptions : dict json) (k : key) (quantities : dict Z) : Z :=
  fold_right Z.add 0 (map snd (filter (resolves_to descriptions k) quantities)).

(** The record a described classId opens (quantity 0). *)
Definition first_metadata (descriptions : dict json) (c : key) : option item :=
  match dict_get c descriptions with
  | Some (JObj fields) =>
      match full_icon_url_of (JObj fields) with
      | Ok url => Some (described_item fields c url)
      | Raise _ => None
      end
  | _ => None
  end.

(** ClassId [c] has a description the join can read. *)
Definition described (descriptions : dict json) (c : key) : bool :=
  match dict_get c descriptions with
  | Some desc_obj => joinable_description desc_obj
  | None => false
  end.








(** A decoded value that is an object (a Python dict). *)
Definition is_object (v : json) : bool :=
  match v with JObj _ => true | _ => false end.

(** The values [int] refuses with a [TypeError]: null, a list, an
    object. *)
Definition int_type_error (v : json) : bool :=
  match v with JNull | JArr _ | JObj _ => true | _ => false end.

Definition sum_values (d : dict Z) : Z := fold_right Z.add 0 (map snd d).

Definition sum_quantities (d : dict item) : Z :=
  fold_right Z.add 0 (map (fun entry => quantity (snd entry)) d).

(** Two description tables for the samples: one that files classIds 1
    and 7 under the same name, and the quantities to join. *)
Definition sample_descriptions : dict json :=
  [(KStr "1", description_record "1" "Widget" "A");
   (KStr "7", description_record "7" "Widget" "B")].

Definition sample_quantities : dict Z := [(KStr "1", 9); (KStr "7", 1)].

(** ** Facts about keys and dictionaries *)

Lemma key_eqb_refl (k : key) : key_eqb k k = true.
Proof.
  destruct k as [|b|z|s]; simpl; auto using Z.eqb_refl, String.eqb_refl.
Qed.

Lemma key_eqb_sym (a b : key) : key_eqb a b = key_eqb b a.
Proof.
  destruct a, b; simpl; auto using Z.eqb_sym, String.eqb_sym.
Qed.

Lemma key_eqb_trans (a b c : key) :
  key_eqb a b = true -> key_eqb b c = true -> key_eqb a c = true.
Proof.
  destruct a as [|[]|x|s], b as [|[]|y|t], c as [|[]|z|u];
    cbn [key_eqb key_num]; intros H1 H2; try discriminate; try reflexivity;
    rewrite ?Z.eqb_eq, ?String.eqb_eq in *; try congruence; lia.
Qed.

(** Equal keys are looked up alike. *)
Lemma key_eqb_congr (a b c : key) :
  key_eqb a b = true -> key_eqb a c = key_eqb b c.
Proof.
  intros Hab. destruct (key_eqb b c) eqn:Hbc.
  - eapply key_eqb_trans; eauto.
  - destruct (key_eqb a c) eqn:Hac; auto.
    rewrite key_eqb_sym in Hab.
    rewrite (key_eqb_trans _ _ _ Hab Hac) in Hbc. discriminate.
Qed.

Section Dict.
Context {V : Type}.
Implicit Types (d : dict V) (k : key) (v : V).

Lemma dict_get_congr k k' d :
  key_eqb k k' = true -> dict_get k d = dict_get k' d.
Proof.
  intros E. induction d as [|[k0 v0] d IH]; simpl; auto.
  rewrite (key_eqb_sym k0 k), (key_eqb_sym k0 k'), (key_eqb_congr _ _ _ E).
  destruct (key_eqb k' k0); auto.
Qed.

Lemma dict_get_set_same k k' v d :
  key_eqb k k' = true -> dict_get k' (dict_set k v d) = Some v.
Proof.
  intros E. induction d as [|[k0 v0] d IH]; simpl.
  - now rewrite E.
  - destruct (key_eqb k0 k) eqn:E0; simpl.
    + now rewrite (key_eqb_trans _ _ _ E0 E).
    + rewrite (key_eqb_sym k0 k'), <- (key_eqb_congr _ _ _ E), key_eqb_sym, E0.
      exact IH.
Qed.

Lemma dict_get_set_other k k' v d :
  key_eqb k k' = false -> dict_get k' (dict_set k v d) = dict_get k' d.
Proof.
  intros E. induction d as [|[k0 v0] d IH]; simpl.
  - now rewrite E.
  - destruct (key_eqb k0 k) eqn:E0; simpl.
    + now rewrite (key_eqb_congr _ _ _ E0), E.
    + destruct (key_eqb k0 k'); auto.
Qed.

Lemma dict_get_set k k' v d :
  dict_get k' (dict_set k v d) =
  if key_eqb k k' then Some v else dict_get k' d.
Proof.
  destruct (key_eqb k k') eqn:E;
    auto using dict_get_set_same, dict_get_set_other.
Qed.

Lemma dict_get_In k v d : dict_get k d = Some v -> exists k', In (k', v) d.
Proof.
  induction d as [|[k0 v0] d IH]; simpl; [discriminate|].
  destruct (key_eqb k0 k).
  - intros [= ->]. eauto.
  - intros H. destruct (IH H) as [k' ?]. eauto.
Qed.

(** Assignment changes at most one value. *)
Lemma dict_set_In k v d k' v' :
  In (k', v') (dict_set k v d) -> v' = v \/ In (k', v') d.
Proof.
  induction d as [|[k0 v0] d IH]; simpl.
  - intros [[= <- <-]|[]]. auto.
  - destruct (key_eqb k0 k); simpl.
    + intros [[= <- <-]|H]; auto.
    + intros [H|H]; auto. destruct (IH H); auto.
Qed.

Lemma dict_set_fresh k v d :
  dict_get k d = None -> dict_set k v d = (d ++ [(k, v)])%list.
Proof.
  induction d as [|[k0 v0] d IH]; simpl; auto.
  destruct (key_eqb k0 k); [discriminate|].
  intros H. now rewrite IH.
Qed.
End Dict.

(** ** Numerals *)

Lemma of_uint_acc_horner (d : Decimal.uint) :
  forall acc, Zpos (Pos.of_uint_acc d acc) = horner (Zpos acc) d.
Proof.
  induction d; intros acc; cbn [Pos.of_uint_acc horner]; auto;
    rewrite IHd; f_equal; lia.
Qed.

Lemma of_uint_horner (d : Decimal.uint) : Z.of_uint d = horner 0 d.
Proof.
  unfold Z.of_uint.
  induction d; cbn [Pos.of_uint horner Z.of_N]; auto;
    try (rewrite of_uint_acc_horner; f_equal; lia).
Qed.

Lemma uint_of_char_digit (c : ascii) (d d' : Decimal.uint) :
  uint_of_char c (Some d) = Some d' ->
  Ascii.eqb c "_"%char = false /\ Ascii.eqb c "+"%char = false /\
  Ascii.eqb c "-"%char = false /\ is_space c = false /\
  is_decimal_digit c = true /\
  exists k, digit_of c = Some k /\ forall acc, horner acc d' = horner (10 * acc + k) d.
Proof.
  intros H. apply uint_of_char_spec in H.
  destruct H as [[-> ->]|[[-> ->]|[[-> ->]|[[-> ->]|[[-> ->]|[[-> ->]|[[-> ->]|
    [[-> ->]|[[-> ->]|[-> ->]]]]]]]]]];
    repeat split; try reflexivity; eexists; (split; [cbv; reflexivity|]);
    intros acc; cbn [horner]; f_equal; lia.
Qed.

Lemma digits_value_numeral (s : string) :
  forall d, NilEmpty.uint_of_string s = Some d -> s <> "" ->
  forall acc after_digit,
    digits_value acc after_digit (list_ascii_of_string s) = Some (horner acc d).
Proof.
  induction s as [|c s IH]; intros d H Hne acc after_digit; [congruence|].
  cbn [NilEmpty.uint_of_string] in H.
  destruct (NilEmpty.uint_of_string s) as [d0|] eqn:E; [|discriminate].
  apply uint_of_char_digit in H as (Hu & _ & _ & _ & _ & k & Hk & Hh).
  cbn [list_ascii_of_string digits_value]. rewrite Hu, Hk, Hh.
  destruct s as [|c' s'].
  - injection E as <-. reflexivity.
  - apply IH; auto. discriminate.
Qed.

Lemma numeral_chars (s : string) :
  forall d, NilEmpty.uint_of_string s = Some d ->
  forallb (fun c => negb (is_space c)) (list_ascii_of_string s) = true.
Proof.
  induction s as [|c s IH]; intros d H; [reflexivity|].
  cbn [NilEmpty.uint_of_string] in H.
  destruct (NilEmpty.uint_of_string s) as [d0|] eqn:E; [|discriminate].
  apply uint_of_char_digit in H as (_ & _ & _ & Hs & _).
  cbn [list_ascii_of_string forallb]. rewrite Hs. cbn [negb andb]. eauto.
Qed.

Lemma lstrip_space_id (l : list ascii) :
  match l with c :: _ => is_space c = false | [] => True end ->
  lstrip_space l = l.
Proof. destruct l as [|c l]; cbn [lstrip_space]; auto. now intros ->. Qed.

Lemma strip_space_id (l : list ascii) :
  forallb (fun c => negb (is_space c)) l = true -> strip_space l = l.
Proof.
  intros H. unfold strip_space.
  assert (Hhead : forall l', forallb (fun c => negb (is_space c)) l' = true ->
                    match l' with c :: _ => is_space c = false | [] => True end).
  { intros [|c l'] H'; auto. cbn [forallb] in H'. apply andb_prop in H' as [Hc _].
    now apply negb_true_iff. }
  rewrite (lstrip_space_id l) by (apply Hhead, H).
  rewrite (lstrip_space_id (rev l)).
  - apply rev_involutive.
  - apply Hhead. rewrite forallb_forall in *. intros c Hc. apply H.
    now apply in_rev.
Qed.

Lemma digit_count_le (l : list ascii) :
  (List.length (filter is_decimal_digit l) <= List.length l)%nat.
Proof.
  induction l as [|c l IH]; cbn [filter List.length]; auto.
  destruct (is_decimal_digit c); cbn [List.length]; lia.
Qed.

Lemma length_list_ascii (s : string) :
  List.length (list_ascii_of_string s) = String.length s.
Proof. induction s; cbn; auto. Qed.

(** What the code's [int] makes of a numeral is the integer the numeral
    stands for. *)
Lemma numeral_value_int_of_str (s : string) (z : Z) :
  numeral_value s = Some z -> int_of_str s = Some z.
Proof.
  unfold numeral_value.
  destruct (Nat.leb_spec (String.length s) int_max_str_digits) as [Hlen|]; [|discriminate].
  destruct s as [|c s]; [discriminate|].
  cbn [NilZero.int_of_string].
  destruct (Ascii.eqb_spec c "-"%char) as [->|Hminus].
  - unfold NilZero.uint_of_string.
    destruct s as [|c' s'] eqn:Es; [discriminate|]. rewrite <- Es in *.
    destruct (NilEmpty.uint_of_string s) as [d|] eqn:E; [|discriminate].
    cbn [option_map]. intros [= <-].
    unfold int_of_str. cbn [list_ascii_of_string].
    rewrite strip_space_id
      by (cbn [forallb]; rewrite (numeral_chars s d E); reflexivity).
    destruct (Nat.ltb_spec int_max_str_digits
                (List.length (filter is_decimal_digit ("-"%char :: list_ascii_of_string s))))
      as [Hcap|_].
    { pose proof (digit_count_le ("-"%char :: list_ascii_of_string s)) as Hle.
      cbn [List.length] in Hle. rewrite length_list_ascii in Hle.
      cbn [String.length] in Hlen. lia. }
    replace (Ascii.eqb "-" "+") with false by reflexivity.
    replace (Ascii.eqb "-" "-") with true by reflexivity.
    rewrite (digits_value_numeral s d E) by (subst s; discriminate).
    cbn [option_map Z.of_int]. now rewrite of_uint_horner.
  - unfold NilZero.uint_of_string.
    destruct (NilEmpty.uint_of_string (String c s)) as [d|] eqn:E; [|discriminate].
    cbn [option_map]. intros [= <-].
    pose proof E as E'. cbn [NilEmpty.uint_of_string] in E'.
    destruct (NilEmpty.uint_of_string s) as [d0|]; [|discriminate].
    apply uint_of_char_digit in E' as (_ & Hplus & Hm & _).
    unfold int_of_str.
    rewrite strip_space_id by (eapply numeral_chars; eauto).
    destruct (Nat.ltb_spec int_max_str_digits
                (List.length (filter is_decimal_digit (list_ascii_of_string (String c s)))))
      as [Hcap|_].
    { pose proof (digit_count_le (list_ascii_of_string (String c s))) as Hle.
      rewrite length_list_ascii in Hle. lia. }
    cbn [list_ascii_of_string]. rewrite Hplus, Hm.
    change (c :: list_ascii_of_string s) with (list_ascii_of_string (String c s)).
    rewrite (digits_value_numeral _ d E) by discriminate.
    cbn [Z.of_int]. now rewrite of_uint_horner.
Qed.

(** ** Accumulating assets and descriptions *)

Lemma foldM_app {A B : Type} (f : A -> B -> result A) (xs ys : list B) (acc : A) :
  foldM f (xs ++ ys)%list acc = (acc' <- foldM f xs acc ;; foldM f ys acc').
Proof.
  revert acc. induction xs as [|x xs IH]; intros acc; simpl; auto.
  destruct (f acc x); simpl; auto.
Qed.

Lemma record_key_inv (record : json) (k : key) :
  record_key record = Some k ->
  exists fields, record = JObj fields /\
                 hash_key (obj_get_default "classid" JNull fields) = Ok k.
Proof.
  destruct record; try discriminate. simpl.
  destruct (hash_key _) eqn:E; [|discriminate].
  intros [= ->]. eauto.
Qed.

Lemma add_asset_valid (asset : json) :
  valid_asset asset = true ->
  exists k q, record_key asset = Some k /\ amount_value asset = Some q /\
    forall d, add_asset d asset = Ok (dict_set k (dict_get_default k d 0 + q) d).
Proof.
  unfold valid_asset.
  destruct (record_key asset) as [k|] eqn:Ek; [|discriminate].
  destruct (amount_value asset) as [q|] eqn:Eq; [|discriminate].
  intros _. exists k, q. repeat split; auto. intros d.
  destruct (record_key_inv _ _ Ek) as (fields & -> & Hk).
  unfold amount_value in Eq. unfold add_asset, asset_classid. simpl.
  destruct (asset_amount (JObj fields)); [|discriminate].
  injection Eq as ->. simpl. now rewrite Hk.
Qed.

Lemma total_amount_cons (c : key) (asset : json) (assets : list json) :
  total_amount c (asset :: assets) =
  (if has_classid c asset then amount_or_zero asset else 0) + total_amount c assets.
Proof.
  unfold total_amount. simpl. destruct (has_classid c asset); simpl; lia.
Qed.

Lemma total_amount_absent (c : key) (assets : list json) :
  existsb (has_classid c) assets = false -> total_amount c assets = 0.
Proof.
  induction assets as [|a l IH]; simpl; auto.
  rewrite total_amount_cons.
  destruct (has_classid c a); simpl; [discriminate|]. auto.
Qed.

(** The loop over asset records adds, for each classId, the amounts of
    its records to what the table held. *)
Lemma add_assets_get (assets : list json) :
  forallb valid_asset assets = true ->
  forall d, exists d',
    foldM add_asset assets d = Ok d' /\
    forall c, dict_get c d' =
              if existsb (has_classid c) assets
              then Some (dict_get_default c d 0 + total_amount c assets)
              else dict_get c d.
Proof.
  induction assets as [|a l IH]; simpl; intros Hv d.
  - exists d. split; auto.
  - apply andb_prop in Hv as [Ha Hl].
    destruct (add_asset_valid a Ha) as (k & q & Ek & Eq & Hadd).
    rewrite Hadd. simpl.
    destruct (IH Hl (dict_set k (dict_get_default k d 0 + q) d)) as (d' & Hd' & Hget).
    exists d'. split; auto. intros c. rewrite Hget, total_amount_cons.
    assert (Hc : has_classid c a = key_eqb k c) by (unfold has_classid; now rewrite Ek).
    rewrite !Hc. unfold amount_or_zero. rewrite Eq.
    unfold dict_get_default. rewrite !dict_get_set.
    destruct (key_eqb k c) eqn:E; simpl.
    + rewrite (dict_get_congr k c d E).
      destruct (existsb (has_classid c) l) eqn:El.
      * f_equal. lia.
      * rewrite (total_amount_absent c l El). f_equal. lia.
    + reflexivity.
Qed.

Lemma add_description_valid (desc : json) :
  valid_description desc = true ->
  exists k, record_key desc = Some k /\
    forall d, add_description d desc =
              Ok (if dict_mem k d then d else dict_set k desc d).
Proof.
  unfold valid_description.
  destruct (record_key desc) as [k|] eqn:Ek; [|discriminate].
  intros _. exists k. split; auto. intros d.
  destruct (record_key_inv _ _ Ek) as (fields & -> & Hk).
  unfold add_description. simpl. now rewrite Hk.
Qed.

(** The loop over description records keeps what the table held and
    adds, for a new classId, the first record that bears it. *)
Lemma add_descriptions_get (descs : list json) :
  forallb valid_description descs = true ->
  forall d, exists d',
    foldM add_description descs d = Ok d' /\
    forall c, dict_get c d' =
              match dict_get c d with
              | Some desc => Some desc
              | None => find (has_classid c) descs
              end.
Proof.
  induction descs as [|a l IH]; simpl; intros Hv d.
  - exists d. split; auto. intros c. now destruct (dict_get c d).
  - apply andb_prop in Hv as [Ha Hl].
    destruct (add_description_valid a Ha) as (k & Ek & Hadd).
    rewrite Hadd. simpl.
    destruct (IH Hl (if dict_mem k d then d else dict_set k a d)) as (d' & Hd' & Hget).
    exists d'. split; auto. intros c. rewrite Hget.
    assert (Hc : has_classid c a = key_eqb k c) by (unfold has_classid; now rewrite Ek).
    rewrite !Hc. unfold dict_mem.
    destruct (key_eqb k c) eqn:E.
    + rewrite <- (dict_get_congr k c d E).
      destruct (dict_get k d) eqn:Ed.
      * now rewrite <- (dict_get_congr k c d E), Ed.
      * now rewrite dict_get_set_same.
    + destruct (dict_get k d) eqn:Ed; auto.
      now rewrite dict_get_set_other.
Qed.

(** ** Pages and pagination *)

Lemma valid_page_has_keys (p : page) :
  valid_page p = true -> obj_has "assets" p && obj_has "descriptions" p = true.
Proof.
  unfold valid_page, obj_has.
  destruct (obj_get "assets" p); [|discriminate].
  destruct (obj_get "descriptions" p); auto.
  destruct j; discriminate.
Qed.

Lemma accumulate_valid_page (p : page) (t : dict Z * dict json) :
  valid_page p = true ->
  exists t', accumulate_page p t = Ok t' /\
             foldM add_asset (page_assets p) (fst t) = Ok (fst t') /\
             foldM add_description (page_descriptions p) (snd t) = Ok (snd t').
Proof.
  unfold valid_page, accumulate_page, page_assets, page_descriptions, obj_get_default.
  destruct (obj_get "assets" p) as [[| | | |assets|]|]; try discriminate.
  destruct (obj_get "descriptions" p) as [[| | | |descs|]|]; try discriminate.
  intros Hv. apply andb_prop in Hv as [Ha Hd].
  destruct (add_assets_get assets Ha (fst t)) as (q & Hq & _).
  destruct (add_descriptions_get descs Hd (snd t)) as (d & Hd' & _).
  exists (q, d). simpl. rewrite Hq. simpl. rewrite Hd'. auto.
Qed.

Lemma accumulate_valid_pages (pages : list page) :
  forallb valid_page pages = true ->
  forall t, exists t',
    foldM (fun t p => accumulate_page p t) pages t = Ok t' /\
    foldM add_asset (all_assets pages) (fst t) = Ok (fst t') /\
    foldM add_description (all_page_descriptions pages) (snd t) = Ok (snd t').
Proof.
  unfold all_assets, all_page_descriptions.
  induction pages as [|p pages IH]; simpl; intros Hv t.
  - exists t. auto.
  - apply andb_prop in Hv as [Hp Hps].
    destruct (accumulate_valid_page p t Hp) as (t1 & E1 & Ha1 & Hd1).
    destruct (IH Hps t1) as (t' & E' & Ha' & Hd').
    exists t'. rewrite E1. simpl. rewrite !foldM_app, Ha1, Hd1. auto.
Qed.

(** Valid pages that announce a next page are consumed one request each,
    and leave the loop running on the accumulated tables. *)
Lemma paginate_prefix (pre : list page) (rest : list reply) :
  forallb valid_page pre = true ->
  forallb continues pre = true ->
  forall st, exists st',
    paginate (replies_of pre ++ rest)%list st = paginate rest st' /\
    foldM (fun t p => accumulate_page p t) pre (tables_of st) = Ok (tables_of st') /\
    page_count st' = (page_count st + List.length pre)%nat.
Proof.
  induction pre as [|p pre IH]; simpl; intros Hv Hc st.
  - exists st. repeat split; auto.
  - apply andb_prop in Hv as [Hp Hps]. apply andb_prop in Hc as [Cp Cps].
    rewrite (valid_page_has_keys p Hp). simpl.
    destruct (accumulate_valid_page p (tables_of st) Hp) as (t1 & E1 & _).
    unfold tables_of in *. rewrite E1, Cp. simpl.
    match goal with |- context [paginate _ ?s] => destruct (IH Hps Cps s) as (st' & E' & Hacc & Hn) end.
    exists st'. simpl in *. rewrite E'. repeat split; auto.
    + now destruct t1.
    + lia.
Qed.

Lemma paginate_last (p : page) (rest : list reply) (st : state) :
  valid_page p = true -> continues p = false ->
  exists st',
    paginate (Body (JObj p) :: rest) st = Some (Exit_done st') /\
    accumulate_page p (tables_of st) = Ok (tables_of st').
Proof.
  intros Hp Cp. simpl. rewrite (valid_page_has_keys p Hp).
  destruct (accumulate_valid_page p (tables_of st) Hp) as (t1 & E1 & _).
  unfold tables_of in *. simpl. rewrite E1, Cp. simpl.
  eexists. split; [reflexivity|]. simpl. now destruct t1.
Qed.

Lemma paginated_split (pages : list page) :
  paginated pages = true ->
  exists pre last, pages = (pre ++ [last])%list /\
                   forallb continues pre = true /\ continues last = false.
Proof.
  induction pages as [|p pages IH]; [discriminate|].
  destruct pages as [|p' pages].
  - simpl. intros H. exists [], p. repeat split. now destruct (continues p).
  - intros H. change (continues p && paginated (p' :: pages) = true) in H.
    apply andb_prop in H as [Cp H]. destruct (IH H) as (pre & last & E & Hpre & Hlast).
    exists (p :: pre), last. rewrite E. simpl. rewrite Cp. auto.
Qed.

(** A paginated sequence of valid pages is fetched to its end, and the
    tables at the end are the two loops run over all records in page
    order. *)
Lemma paginate_pages (pages : list page) (st : state) :
  forallb valid_page pages = true ->
  paginated pages = true ->
  exists st',
    paginate (replies_of pages) st = Some (Exit_done st') /\
    foldM (fun t p => accumulate_page p t) pages (tables_of st) = Ok (tables_of st') /\
    foldM add_asset (all_assets pages) (asset_quantities st)
      = Ok (asset_quantities st') /\
    foldM add_description (all_page_descriptions pages) (all_descriptions st)
      = Ok (all_descriptions st').
Proof.
  intros Hv Hp.
  destruct (paginated_split pages Hp) as (pre & last & -> & Hpre & Hlast).
  rewrite forallb_app in Hv. apply andb_prop in Hv as [Hvpre Hvlast].
  simpl in Hvlast. rewrite andb_true_r in Hvlast.
  destruct (paginate_prefix pre [Body (JObj last)] Hvpre Hpre st) as (st1 & E1 & A1 & _).
  destruct (paginate_last last [] st1 Hvlast Hlast) as (st' & E' & A').
  exists st'.
  assert (Hrun : paginate (replies_of (pre ++ [last])%list) st = Some (Exit_done st')).
  { unfold replies_of in *. rewrite map_app. cbn [map].
    etransitivity; [exact E1|exact E']. }
  assert (Hacc : foldM (fun t p => accumulate_page p t) (pre ++ [last])%list (tables_of st)
                 = Ok (tables_of st')).
  { rewrite foldM_app, A1. simpl. now rewrite A'. }
  repeat split; auto.
  - destruct (accumulate_valid_pages (pre ++ [last])%list) with (t := tables_of st)
      as (t' & Et & Ha & _).
    { rewrite forallb_app, Hvpre. simpl. now rewrite Hvlast. }
    rewrite Hacc in Et. injection Et as <-. exact Ha.
  - destruct (accumulate_valid_pages (pre ++ [last])%list) with (t := tables_of st)
      as (t' & Et & _ & Hd).
    { rewrite forallb_app, Hvpre. simpl. now rewrite Hvlast. }
    rewrite Hacc in Et. injection Et as <-. exact Hd.
Qed.

Lemma valid_pages_records (pages : list page) :
  forallb valid_page pages = true ->
  forallb valid_asset (all_assets pages) = true /\
  forallb valid_description (all_page_descriptions pages) = true.
Proof.
  unfold all_assets, all_page_descriptions.
  induction pages as [|p pages IH]; simpl; auto.
  intros H. apply andb_prop in H as [Hp Hps]. destruct (IH Hps) as [Ha Hd].
  rewrite !forallb_app, Ha, Hd, !andb_true_r.
  unfold valid_page, page_assets, page_descriptions in *.
  destruct (obj_get "assets" p) as [[| | | |assets|]|]; try discriminate.
  destruct (obj_get "descriptions" p) as [[| | | |descs|]|]; try discriminate.
  now apply andb_prop in Hp.
Qed.

(** ** The accumulated tables *)

(** The accumulated quantity in terms of what [int] returns on each
    amount. *)
Lemma accumulated_quantity (pages : list page) (c : key) :
  forallb valid_page pages = true ->
  paginated pages = true ->
  exists st,
    paginate (replies_of pages) initial_state = Some (Exit_done st) /\
    dict_get c (asset_quantities st) =
      if existsb (has_classid c) (all_assets pages)
      then Some (total_amount c (all_assets pages))
      else None.
Proof.
  intros Hv Hp.
  destruct (paginate_pages pages initial_state Hv Hp) as (st & Hrun & _ & Ha & _).
  exists st. split; auto.
  destruct (valid_pages_records pages Hv) as [Hva _].
  destruct (add_assets_get _ Hva (asset_quantities initial_state)) as (d' & Hd' & Hget).
  rewrite Ha in Hd'. injection Hd' as <-.
  rewrite Hget. simpl. reflexivity.
Qed.

(** The code reads the stated amount of a record. *)
Lemma stated_amount_read (asset : json) (z : Z) :
  stated_amount asset = Some z -> asset_amount asset = Ok z.
Proof.
  unfold stated_amount, asset_amount.
  destruct asset as [| | | | |fields]; try discriminate.
  cbn [py_get bind]. unfold obj_get_default.
  destruct (obj_get "amount" fields) as [[| |q|s| |]|]; try discriminate.
  - now intros [= ->].
  - intros H. cbn [py_int]. now rewrite (numeral_value_int_of_str s z H).
  - now intros [= <-].
Qed.

Lemma well_formed_asset_valid (asset : json) :
  well_formed_asset asset = true ->
  valid_asset asset = true /\
  amount_or_zero asset = match stated_amount asset with Some z => z | None => 0 end.
Proof.
  unfold well_formed_asset, valid_asset, amount_or_zero, amount_value.
  destruct (record_key asset); [|discriminate].
  destruct (stated_amount asset) as [z|] eqn:E; [|discriminate].
  rewrite (stated_amount_read asset z E). auto.
Qed.

Lemma well_formed_assets_valid (assets : list json) :
  forallb well_formed_asset assets = true -> forallb valid_asset assets = true.
Proof.
  rewrite !forallb_forall. intros H a Ha.
  now apply well_formed_asset_valid, H.
Qed.

Lemma well_formed_page_valid (p : page) :
  well_formed_page p = true -> valid_page p = true.
Proof.
  unfold well_formed_page, valid_page.
  destruct (obj_get "assets" p) as [[| | | |assets|]|]; try discriminate.
  destruct (obj_get "descriptions" p) as [[| | | |descs|]|]; try discriminate.
  intros H. apply andb_prop in H as [Ha ->].
  now rewrite (well_formed_assets_valid assets Ha).
Qed.

Lemma well_formed_pages_assets (pages : list page) :
  forallb well_formed_page pages = true ->
  forallb well_formed_asset (all_assets pages) = true.
Proof.
  unfold all_assets.
  induction pages as [|p pages IH]; cbn [map List.concat forallb]; auto.
  intros H. apply andb_prop in H as [Hp Hps].
  rewrite forallb_app, (IH Hps), andb_true_r.
  unfold well_formed_page, page_assets in *.
  destruct (obj_get "assets" p) as [[| | | |assets|]|]; try discriminate.
  destruct (obj_get "descriptions" p) as [[| | | |descs|]|]; try discriminate.
  now apply andb_prop in Hp.
Qed.

Lemma stated_total_read (c : key) (assets : list json) :
  forallb well_formed_asset assets = true ->
  total_amount c assets = stated_total c assets.
Proof.
  unfold total_amount, stated_total.
  induction assets as [|a assets IH]; cbn [forallb filter]; auto.
  intros H. apply andb_prop in H as [Ha Hrest].
  destruct (has_classid c a); auto.
  cbn [map fold_right]. rewrite (IH Hrest).
  now destruct (well_formed_asset_valid a Ha) as [_ ->].
Qed.

(** C1: for every paginated sequence of pages whose asset records have a
    hashable classId and an [amount] that is an integer, a plain decimal
    numeral or absent, the fetch reaches the end of the pagination and
    the quantity it has accumulated for a classId is the sum of the
    integer values of the [amount] fields of all asset records with that
    classId across all pages, a record without [amount] counting 1; a
    classId without asset record has no entry. *)
Theorem quantity_is_sum_of_amounts (pages : list page) (c : key) :
  forallb well_formed_page pages = true ->
  paginated pages = true ->
  exists st,
    paginate (replies_of pages) initial_state = Some (Exit_done st) /\
    dict_get c (asset_quantities st) =
      if existsb (has_classid c) (all_assets pages)
      then Some (stated_total c (all_assets pages))
      else None.
Proof.
  intros Hw Hp.
  assert (Hv : forallb valid_page pages = true).
  { rewrite forallb_forall in *. intros p Hin.
    now apply well_formed_page_valid, Hw. }
  destruct (accumulated_quantity pages c Hv Hp) as (st & Hrun & Hget).
  exists st. split; auto.
  now rewrite <- (stated_total_read c _ (well_formed_pages_assets pages Hw)).
Qed.

Lemma quantity_is_sum_of_amounts_witness :
  exists st,
    paginate (replies_of counted_pages) initial_state = Some (Exit_done st) /\
    dict_get (KStr "1") (asset_quantities st) = Some 10.
Proof.
  exact (quantity_is_sum_of_amounts counted_pages (KStr "1") eq_refl eq_refl).
Defined.

(** ** The join never fails on well-typed descriptions *)

Lemma add_descriptions_values (descs : list json) :
  forall d d', foldM add_description descs d = Ok d' ->
  forall k v, In (k, v) d' -> In (k, v) d \/ In v descs.
Proof.
  induction descs as [|a l IH]; simpl; intros d d' H k v Hin.
  - injection H as <-. auto.
  - destruct (add_description d a) as [d1|] eqn:E1; [|discriminate]. simpl in H.
    destruct (IH _ _ H k v Hin) as [Hd1|Hl]; auto.
    unfold add_description in E1.
    destruct (py_get a "classid" JNull); [|discriminate]. simpl in E1.
    destruct (hash_key a0) as [k0|]; [|discriminate]. simpl in E1.
    injection E1 as <-.
    destruct (dict_mem k0 d); auto.
    apply dict_set_In in Hd1 as [->|]; auto.
Qed.

Lemma joinable_pages_descriptions (pages : list page) :
  forallb joinable_page pages = true ->
  forallb joinable_description (all_page_descriptions pages) = true.
Proof.
  unfold all_page_descriptions.
  induction pages as [|p pages IH]; simpl; auto.
  intros H. apply andb_prop in H as [Hp Hps].
  rewrite forallb_app, (IH Hps), andb_true_r. exact Hp.
Qed.

Lemma market_hash_name_of_obj (fields : list (string * json)) (c : key) :
  market_hash_name_of (JObj fields) c =
  Ok (obj_get_default "market_hash_name"
        (obj_get_default "name" (JStr ("Unknown Item " ++ py_str c)) fields) fields).
Proof. reflexivity. Qed.

Lemma full_icon_url_of_total (fields : list (string * json)) :
  (let icon := obj_get_default "icon_url" (JStr "") fields in
   negb (py_truthy icon) || match icon with JStr _ => true | _ => false end) = true ->
  exists url, full_icon_url_of (JObj fields) = Ok url.
Proof.
  unfold full_icon_url_of. cbn [py_get bind].
  destruct (obj_get_default "icon_url" (JStr "") fields) as [|b|z|s|l|l];
    cbn [py_truthy negb orb]; intros H.
  - eauto.
  - destruct b; [discriminate|eauto].
  - destruct (negb (z =? 0)); [discriminate|eauto].
  - destruct (negb (String.eqb s "")); eauto.
  - destruct l; [eauto|discriminate].
  - destruct l; [eauto|discriminate].
Qed.

Lemma join_step_total (descriptions : dict json) (acc : dict item) (c : key) (q : Z) :
  (forall desc, dict_get c descriptions = Some desc -> joinable_description desc = true) ->
  exists acc', join_step descriptions acc (c, q) = Ok acc'.
Proof.
  intros Hj. unfold join_step.
  destruct (dict_get c descriptions) as [desc|]; [|eauto].
  specialize (Hj desc eq_refl). destruct desc; try discriminate.
  cbn [joinable_description] in Hj. apply andb_prop in Hj as [Hk Hicon].
  rewrite market_hash_name_of_obj. cbn [bind].
  destruct (full_icon_url_of_total fields Hicon) as [url ->]. cbn [bind].
  assert (Hh : exists k,
             hash_key (obj_get_default "market_hash_name"
                         (obj_get_default "name" (JStr ("Unknown Item " ++ py_str c)) fields)
                         fields) = Ok k).
  { unfold hashable, obj_get_default in *.
    destruct (obj_get "market_hash_name" fields) as [m|].
    - destruct (hash_key m); [eauto|discriminate].
    - destruct (obj_get "name" fields) as [n|].
      + destruct (hash_key n); [eauto|discriminate].
      + cbn [hash_key]. eauto. }
  destruct Hh as [k ->]. cbn [bind]. eauto.
Qed.

Lemma join_total (quantities : dict Z) (descriptions : dict json) :
  (forall k desc, In (k, desc) descriptions -> joinable_description desc = true) ->
  exists inv, join quantities descriptions = Ok inv.
Proof.
  intros Hj. unfold join. generalize (@nil (key * item)).
  induction quantities as [|[c q] l IH]; intros acc; cbn [foldM]; [eauto|].
  destruct (join_step_total descriptions acc c q) as [acc' E].
  { intros desc Hget. apply dict_get_In in Hget as [k' Hin]. eauto. }
  rewrite E. cbn [bind]. apply IH.
Qed.

(** Valid pages with well-typed descriptions aggregate to an inventory. *)
Lemma aggregate_total (pages : list page) :
  forallb valid_page pages = true ->
  forallb joinable_page pages = true ->
  exists inv, aggregate pages = Ok inv.
Proof.
  intros Hv Hj. unfold aggregate.
  destruct (accumulate_valid_pages pages Hv ([], [])) as (t & Et & _ & Hd).
  rewrite Et. simpl. apply join_total. intros k desc Hin.
  destruct (add_descriptions_values _ _ _ Hd k desc Hin) as [[]|Hl].
  pose proof (joinable_pages_descriptions pages Hj) as Hall.
  rewrite forallb_forall in Hall. auto.
Qed.

(** ** A response without the two keys *)

Lemma reports_empty_spec (p : page) :
  reports_empty p = absent_or_zero_total p && no_assets p.
Proof.
  unfold reports_empty, absent_or_zero_total, reports_zero_total, no_assets,
    obj_has, obj_get_default.
  destruct (obj_get "total_inventory_count" p); reflexivity.
Qed.

(** Where the loop stands when a response without the two keys arrives
    after the pages [pre]. *)
Lemma paginate_missing_keys (pre : list page) (p : page) (rest : list reply) :
  forallb valid_page pre = true ->
  forallb continues pre = true ->
  lacks_keys p = true ->
  exists st,
    foldM (fun t q => accumulate_page q t) pre ([], []) = Ok (tables_of st) /\
    page_count st = S (List.length pre) /\
    paginate (replies_of pre ++ Body (JObj p) :: rest)%list initial_state =
      if reports_empty p then Some (Exit_return "inventory_empty")
      else if Nat.eqb (page_count st) 1
           then Some (Exit_return "inventory_private_or_error")
           else Some (Exit_done st).
Proof.
  intros Hv Hc Hl.
  destruct (paginate_prefix pre (Body (JObj p) :: rest) Hv Hc initial_state)
    as (st' & E1 & A1 & N1).
  exists {| asset_quantities := asset_quantities st';
            all_descriptions := all_descriptions st';
            start_assetid := start_assetid st';
            page_count := S (page_count st') |}.
  split; [exact A1|]. split; [simpl; now rewrite N1|].
  rewrite E1. cbn [paginate try_body].
  unfold lacks_keys in Hl. apply negb_true_iff in Hl. rewrite Hl.
  destruct (reports_empty p); auto.
  cbn [page_count]. destruct (Nat.eqb (S (page_count st')) 1); auto.
Qed.

(** C4, amended: after valid pages that each announced a next one, a
    response object that lacks one of the keys [assets] and
    [descriptions] gives [inventory_empty] when its
    [total_inventory_count] is absent or zero and it has no assets;
    otherwise [inventory_private_or_error] on the first page; otherwise,
    on a later page, the pagination ends and, the descriptions of the
    earlier pages being readable, the join of the earlier pages is
    returned. *)
Theorem missing_keys_outcome (pre : list page) (p : page) (rest : list reply) :
  forallb valid_page pre = true ->
  forallb continues pre = true ->
  lacks_keys p = true ->
  let out := fetch_steam_inventory (replies_of pre ++ Body (JObj p) :: rest) in
  (absent_or_zero_total p && no_assets p = true ->
   out = Some (Status "inventory_empty")) /\
  (absent_or_zero_total p && no_assets p = false -> pre = [] ->
   out = Some (Status "inventory_private_or_error")) /\
  (absent_or_zero_total p && no_assets p = false -> pre <> [] ->
   forallb joinable_page pre = true ->
   exists inv, aggregate pre = Ok inv /\ out = Some (Inventory inv)).
Proof.
  intros Hv Hc Hl out. subst out. unfold fetch_steam_inventory.
  destruct (paginate_missing_keys pre p rest Hv Hc Hl) as (st & Hacc & Hn & ->).
  rewrite reports_empty_spec, Hn.
  repeat split.
  - intros ->. reflexivity.
  - intros -> ->. reflexivity.
  - intros -> Hne Hj.
    destruct pre as [|p0 pre]; [congruence|]. cbn [List.length Nat.eqb].
    destruct (aggregate_total _ Hv Hj) as [inv Hinv].
    exists inv. split; auto.
    unfold aggregate in Hinv. rewrite Hacc in Hinv. cbn [bind tables_of fst snd] in Hinv.
    now rewrite Hinv.
Qed.

Lemma missing_keys_outcome_witness :
  exists inv, aggregate [sample_page_1] = Ok inv /\
    fetch_steam_inventory
      [Body (JObj sample_page_1); Body (JObj [("total_inventory_count", JInt 4)])]
    = Some (Inventory inv).
Proof.
  exact (proj2 (proj2 (missing_keys_outcome [sample_page_1]
                         [("total_inventory_count", JInt 4)] []
                         eq_refl eq_refl eq_refl))
           eq_refl ltac:(discriminate) eq_refl).
Defined.

(** An earlier page whose description the join cannot read: the
    [icon_url] is a number, [lstrip] (line 154) raises and the call ends
    with that exception rather than with the earlier items. *)
Example unreadable_description_escapes :
  fetch_steam_inventory
    [Body (JObj [("assets", JArr [asset_record "1" "2"]);
                 ("descriptions",
                  JArr [JObj [("classid", JStr "1"); ("icon_url", JInt 5)]]);
                 ("more_items", JInt 1); ("last_assetid", JStr "900")]);
     Body (JObj [("total_inventory_count", JInt 4)])]
  = Some (Uncaught AttributeError).
Proof. reflexivity. Qed.

(** C4 as stated fails: a first response [{}] reports no count at all, yet
    the fetch answers [inventory_empty], not
    [inventory_private_or_error]. *)
Lemma missing_keys_rule_as_stated_fails : ~ missing_keys_rule_as_stated.
Proof.
  intros H.
  destruct (H [] [] [] eq_refl eq_refl eq_refl eq_refl) as (_ & Hfirst & _).
  specialize (Hfirst eq_refl eq_refl). discriminate Hfirst.
Qed.

(** ** Quantities stay positive *)









(** ** Exceptions *)

(** An exception raised by a request, after any number of valid pages:
    the first matching [except] clause decides, and an exception that no
    clause matches leaves the function.  Nothing after the failed request
    is read. *)
Lemma raised_outcome (pre : list page) (e : exn) (rest : list reply) :
  forallb valid_page pre = true ->
  forallb continues pre = true ->
  fetch_steam_inventory (replies_of pre ++ Raises e :: rest) =
    Some (match handler e with
          | Some status => Status status
          | None => Uncaught e
          end).
Proof.
  intros Hv Hc. unfold fetch_steam_inventory.
  destruct (paginate_prefix pre (Raises e :: rest) Hv Hc initial_state) as (st & -> & _).
  cbn [paginate try_body]. now destruct (handler e).
Qed.

Lemma timeout_outcome (pre : list page) (rest : list reply) :
  forallb valid_page pre = true ->
  forallb continues pre = true ->
  fetch_steam_inventory (replies_of pre ++ Raises Timeout :: rest)
  = Some (Status "request_timeout").
Proof. intros. now rewrite raised_outcome. Qed.

Lemma transport_failure_outcome (pre : list page) (rest : list reply) :
  forallb valid_page pre = true ->
  forallb continues pre = true ->
  fetch_steam_inventory (replies_of pre ++ Raises RequestException :: rest)
  = Some (Status "network_error").
Proof. intros. now rewrite raised_outcome. Qed.

(** A [ValueError] that is not a [RequestException] reaches the third
    clause. *)
Lemma plain_value_error_outcome (pre : list page) (rest : list reply) :
  forallb valid_page pre = true ->
  forallb continues pre = true ->
  fetch_steam_inventory (replies_of pre ++ Raises ValueError :: rest)
  = Some (Status "api_decode_error").
Proof. intros. now rewrite raised_outcome. Qed.

(** C5, at the failing input: a first response whose body is not JSON.
    [response.json()] raises [requests.exceptions.JSONDecodeError], a
    [RequestException], so the second [except] clause answers
    [network_error] and the clause meant for decode errors is never
    tried. *)
Theorem undecodable_body_is_network_error :
  fetch_steam_inventory [body_not_json] = Some (Status "network_error").
Proof. reflexivity. Qed.




(** ** The join *)

(** C3, at the failing input: classId 1 (2 items, described, named
    Widget) and classId 2 (3 items, no description) resolve to the same
    key.  The branch for undescribed classIds assigns a fresh record, so
    the entry holds 3 items and the synthesized metadata, not 5 items
    and the metadata of classId 1. *)
Theorem undescribed_collision_overwrites :
  fetch_steam_inventory [Body (JObj colliding_page)] =
  Some (Inventory
          [(KStr "Unknown Item (ClassID: 2)",
            {| quantity := 3; icon_url := "";
               name := JStr "Unknown Item (ClassID: 2)"; classid := KStr "2";
               tradable := false; marketable := false; tags := JArr [] |})]).
Proof. reflexivity. Qed.



(** ** The differ *)

Lemma dict_get_app_fresh {V : Type} (k k' : key) (v : V) (d : dict V) :
  dict_get k' d = None -> key_eqb k k' = false ->
  dict_get k' (d ++ [(k, v)])%list = None.
Proof.
  induction d as [|[k0 v0] d IH]; simpl; intros Hd Hk.
  - now rewrite Hk.
  - destruct (key_eqb k0 k'); [discriminate|auto].
Qed.

Lemma dict_get_None_In {V : Type} (k k' : key) (v : V) (d : dict V) :
  dict_get k d = None -> In (k', v) d -> key_eqb k' k = false.
Proof.
  induction d as [|[k0 v0] d IH]; simpl; [tauto|].
  destruct (key_eqb k0 k) eqn:E; [discriminate|].
  intros Hd [[= <- <-]|Hin]; auto.
Qed.

(** Over a dictionary, the collecting loop is a filter: each kept entry
    is new in the output and goes to its end. *)
Lemma collect_filter (keep : key -> item -> bool) (inv : dict item) :
  dict_wf inv ->
  collect keep inv = filter (fun entry => keep (fst entry) (snd entry)) inv.
Proof.
  unfold collect.
  enough (H : forall out,
             dict_wf inv ->
             (forall k v, In (k, v) inv -> dict_get k out = None) ->
             fold_left
               (fun out entry =>
                  if keep (fst entry) (snd entry)
                  then dict_set (fst entry) (snd entry) out else out) inv out
             = (out ++ filter (fun entry => keep (fst entry) (snd entry)) inv)%list).
  { intros Hwf. apply (H [] Hwf). reflexivity. }
  induction inv as [|[k v] inv IH]; intros out Hwf Hout; cbn [fold_left filter fst snd].
  - now rewrite app_nil_r.
  - destruct Hwf as [Hk Hwf].
    destruct (keep k v).
    + rewrite (dict_set_fresh k v out) by (apply (Hout k v); now left).
      rewrite IH; auto.
      * now rewrite <- app_assoc.
      * intros k' v' Hin. apply dict_get_app_fresh.
        -- apply (Hout k' v'). now right.
        -- rewrite key_eqb_sym. eapply dict_get_None_In; eauto.
    + apply IH; auto. intros k' v' Hin. apply (Hout k' v'). now right.
Qed.

Lemma dict_get_filter (keep : key -> item -> bool) (inv : dict item) (k : key) :
  dict_wf inv ->
  (forall k1 k2 it, key_eqb k1 k2 = true -> keep k1 it = keep k2 it) ->
  dict_get k (filter (fun entry => keep (fst entry) (snd entry)) inv) =
  match dict_get k inv with
  | Some it => if keep k it then Some it else None
  | None => None
  end.
Proof.
  intros Hwf Hkeep. induction inv as [|[k0 v0] inv IH]; cbn [filter dict_get fst snd]; auto.
  destruct Hwf as [Hk0 Hwf]. specialize (IH Hwf).
  destruct (key_eqb k0 k) eqn:E.
  - rewrite <- (Hkeep k0 k v0 E).
    destruct (keep k0 v0); cbn [dict_get]; [now rewrite E|].
    rewrite IH, <- (dict_get_congr k0 k inv E), Hk0. reflexivity.
  - destruct (keep k0 v0); cbn [dict_get]; [rewrite E|]; exact IH.
Qed.

(** What a collecting loop over a dictionary holds. *)
Lemma dict_get_collect (keep : key -> item -> bool) (inv : dict item) (k : key) (it : item) :
  dict_wf inv ->
  (forall k1 k2 it, key_eqb k1 k2 = true -> keep k1 it = keep k2 it) ->
  dict_get k (collect keep inv) = Some it <->
  dict_get k inv = Some it /\ keep k it = true.
Proof.
  intros Hwf Hkeep. rewrite collect_filter, dict_get_filter by assumption.
  destruct (dict_get k inv) as [it0|]; [|split; [discriminate|intros [? _]; discriminate]].
  destruct (keep k it0) eqn:E; split.
  - intros [= ->]. auto.
  - intros [[= ->] _]. reflexivity.
  - discriminate.
  - intros [[= ->] H]. congruence.
Qed.

(** C7: the differ returns three mappings.  The first holds exactly the
    owner's items with quantity above 1 and tradable; the second exactly
    those of them whose key is absent from the counterpart's inventory;
    the third exactly the counterpart's items with quantity above 1,
    tradable, and a key absent from the owner's inventory. *)
Theorem differ_contents (owner counterpart : dict item) :
  dict_wf owner -> dict_wf counterpart ->
  let r := analyze_inventories_for_streamlit owner counterpart in
  forall k it,
    (dict_get k (fixed_user_tradable_duplicates r) = Some it <->
     dict_get k owner = Some it /\ 1 < quantity it /\ tradable it = true) /\
    (dict_get k (fixed_user_has_you_dont_dupes r) = Some it <->
     dict_get k owner = Some it /\ 1 < quantity it /\ tradable it = true /\
     dict_get k counterpart = None) /\
    (dict_get k (you_have_fixed_user_doesnt_dupes r) = Some it <->
     dict_get k counterpart = Some it /\ 1 < quantity it /\ tradable it = true /\
     dict_get k owner = None).
Proof.
  intros Ho Hc r k it. subst r. cbn [analyze_inventories_for_streamlit
    fixed_user_tradable_duplicates fixed_user_has_you_dont_dupes
    you_have_fixed_user_doesnt_dupes].
  assert (Hmem : forall (d : dict item) k1 k2, key_eqb k1 k2 = true ->
                   dict_mem k1 d = dict_mem k2 d).
  { intros d k1 k2 E. unfold dict_mem. now rewrite (dict_get_congr k1 k2 d E). }
  assert (Habs : forall d : dict item, negb (dict_mem k d) = true <-> dict_get k d = None).
  { intros d. unfold dict_mem. destruct (dict_get k d); simpl; split; congruence. }
  assert (Hkeep : forall d : dict item, forall k1 k2 x, key_eqb k1 k2 = true ->
                    (1 <? quantity x) && tradable x && negb (dict_mem k1 d) =
                    (1 <? quantity x) && tradable x && negb (dict_mem k2 d)).
  { intros d k1 k2 x E. now rewrite (Hmem d k1 k2 E). }
  split; [|split].
  - etransitivity; [apply dict_get_collect; auto|].
    rewrite andb_true_iff, Z.ltb_lt. tauto.
  - etransitivity; [apply dict_get_collect; auto|].
    rewrite !andb_true_iff, Z.ltb_lt, Habs. tauto.
  - etransitivity; [apply dict_get_collect; auto|].
    rewrite !andb_true_iff, Z.ltb_lt, Habs. tauto.
Qed.

Lemma differ_contents_witness :
  let r := analyze_inventories_for_streamlit sample_inventory sample_counterpart in
  (dict_get (KStr "Widget") (fixed_user_tradable_duplicates r) = Some sample_widget <->
   dict_get (KStr "Widget") sample_inventory = Some sample_widget /\
   1 < quantity sample_widget /\ tradable sample_widget = true) /\
  (dict_get (KStr "Widget") (fixed_user_has_you_dont_dupes r) = Some sample_widget <->
   dict_get (KStr "Widget") sample_inventory = Some sample_widget /\
   1 < quantity sample_widget /\ tradable sample_widget = true /\
   dict_get (KStr "Widget") sample_counterpart = None) /\
  (dict_get (KStr "Widget") (you_have_fixed_user_doesnt_dupes r) = Some sample_widget <->
   dict_get (KStr "Widget") sample_counterpart = Some sample_widget /\
   1 < quantity sample_widget /\ tradable sample_widget = true /\
   dict_get (KStr "Widget") sample_inventory = None).
Proof.
  exact (differ_contents sample_inventory sample_counterpart
           (conj eq_refl (conj eq_refl I)) (conj eq_refl (conj eq_refl I))
           (KStr "Widget") sample_widget).
Defined.

(** C9: for every pair of inventories, what the differ reports as held by
    the counterpart and lacked by the owner is what it reports, with the
    two inventories swapped, as held by the owner and lacked by the
    counterpart. *)
Theorem differ_symmetry (a b : dict item) :
  you_have_fixed_user_doesnt_dupes (analyze_inventories_for_streamlit a b) =
  fixed_user_has_you_dont_dupes (analyze_inventories_for_streamlit b a).
Proof. reflexivity. Qed.

(** ** The model on concrete inputs *)

Example py_str_examples :
  py_str (KInt (-42)) = "-42" /\ py_str (KInt 0) = "0" /\
  py_str KNone = "None" /\ py_str (KBool true) = "True".
Proof. repeat split; reflexivity. Qed.

Example int_of_str_examples :
  int_of_str " 12 " = Some 12 /\ int_of_str "-1_000" = Some (-1000) /\
  int_of_str "1__0" = None /\ int_of_str "" = None /\ int_of_str "+ 1" = None /\
  int_of_str "007" = Some 7 /\ int_of_str "3x" = None /\ int_of_str "_1" = None.
Proof. repeat split; reflexivity. Qed.

(** The two sample pages: classId 1 is described as "A" on the first page
    and as "B" on the second; the item uses "A". *)
Example fetch_sample_pages :
  fetch_steam_inventory (replies_of sample_pages) = Some (Inventory sample_inventory).
Proof. reflexivity. Qed.

(** The scenario of the differ: three tradable Widgets against an empty
    inventory. *)
Example differ_scenario :
  let widget := {| quantity := 3; icon_url := ""; name := JStr "Widget";
                   classid := KStr "1"; tradable := true; marketable := true;
                   tags := JArr [] |} in
  analyze_inventories_for_streamlit [(KStr "Widget", widget)] [] =
  {| fixed_user_tradable_duplicates := [(KStr "Widget", widget)];
     fixed_user_has_you_dont_dupes := [(KStr "Widget", widget)];
     you_have_fixed_user_doesnt_dupes := [] |}.
Proof. reflexivity. Qed.

(** The replies run out while a page still announces a next one: the
    model has no answer (the call would make another request). *)
Example fetch_needs_next_reply :
  fetch_steam_inventory [Body (JObj sample_page_1)] = None.
Proof. reflexivity. Qed.

(** Exceptions that no clause catches leave the function. *)
Example null_amount_is_uncaught :
  fetch_steam_inventory
    [Body (JObj [("assets", JArr [JObj [("classid", JStr "1"); ("amount", JNull)]]);
                 ("descriptions", JArr [])])]
  = Some (Uncaught TypeError).
Proof. reflexivity. Qed.

(** A decoded body that is not an object. *)
Example non_object_body :
  fetch_steam_inventory [Body JNull] = Some (Status "inventory_private_or_empty").
Proof. reflexivity. Qed.

(** ** More about the fetch *)

Lemma dict_set_wf {V : Type} (k : key) (v : V) (d : dict V) :
  dict_wf d -> dict_wf (dict_set k v d).
Proof.
  induction d as [|[k0 v0] d IH]; cbn [dict_set dict_wf dict_get].
  - auto.
  - intros [H0 Hwf]. destruct (key_eqb k0 k) eqn:E; cbn [dict_wf].
    + auto.
    + split; auto. rewrite dict_get_set_other; auto.
      now rewrite key_eqb_sym.
Qed.

Lemma join_step_wf (descriptions : dict json) (acc acc' : dict item) (entry : key * Z) :
  join_step descriptions acc entry = Ok acc' -> dict_wf acc -> dict_wf acc'.
Proof.
  destruct entry as [c q]. unfold join_step.
  destruct (dict_get c descriptions) as [desc|].
  - destruct (market_hash_name_of desc c); [|discriminate]. cbn [bind].
    destruct (full_icon_url_of desc); [|discriminate]. cbn [bind].
    destruct (hash_key a); [|discriminate]. cbn [bind].
    destruct desc; try discriminate.
    intros [= <-]. apply dict_set_wf.
  - intros [= <-]. apply dict_set_wf.
Qed.

Lemma foldM_invariant {A B : Type} (f : A -> B -> result A) (P : A -> Prop) :
  (forall acc x acc', f acc x = Ok acc' -> P acc -> P acc') ->
  forall xs acc acc', foldM f xs acc = Ok acc' -> P acc -> P acc'.
Proof.
  intros Hf. induction xs as [|x xs IH]; cbn [foldM]; intros acc acc' H Hacc.
  - now injection H as <-.
  - destruct (f acc x) as [acc1|] eqn:E; [|discriminate]. cbn [bind] in H.
    eauto.
Qed.

(** X1: the mapping a call returns is a dictionary: no two of its
    entries have equal keys, which is what the differ's lookups rely
    on. *)
Theorem fetched_inventory_wf (replies : list reply) (inv : dict item) :
  fetch_steam_inventory replies = Some (Inventory inv) -> dict_wf inv.
Proof.
  unfold fetch_steam_inventory.
  destruct (paginate replies initial_state) as [[status|e|st]|]; try discriminate.
  destruct (join (asset_quantities st) (all_descriptions st)) as [inv'|] eqn:E;
    [|discriminate].
  intros [= <-]. unfold join in E.
  eapply (foldM_invariant (join_step (all_descriptions st)) dict_wf); eauto.
  - intros acc x acc'. apply join_step_wf.
  - exact I.
Qed.

Lemma fetched_inventory_wf_witness : dict_wf sample_inventory.
Proof.
  exact (fetched_inventory_wf (replies_of sample_pages) sample_inventory eq_refl).
Defined.

Lemma handler_status (e : exn) (status : string) :
  handler e = Some status ->
  In status ["request_timeout"; "network_error"; "api_decode_error"].
Proof.
  destruct e; cbn; intros [= <-]; auto.
Qed.

Lemma try_body_status (r : reply) (st : state) (status : string) :
  try_body r st = Ok (Return status) ->
  In status ["inventory_private_or_empty"; "inventory_empty";
             "inventory_private_or_error"].
Proof.
  destruct r as [e|data]; cbn [try_body]; [discriminate|].
  destruct data; try (intros [= <-]; cbn; now auto).
  destruct (obj_has "assets" fields && obj_has "descriptions" fields).
  - destruct (accumulate_page fields _); discriminate.
  - destruct (reports_empty fields); [intros [= <-]; cbn; now auto|].
    destruct (Nat.eqb (page_count st) 1); [intros [= <-]; cbn; now auto|].
    discriminate.
Qed.

Lemma paginate_status (replies : list reply) :
  forall st status, paginate replies st = Some (Exit_return status) ->
  In status status_strings.
Proof.
  induction replies as [|r rest IH]; cbn [paginate]; intros st status H; [discriminate|].
  match type of H with context [try_body r ?s] =>
    destruct (try_body r s) as [[status'|st2 more]|e] eqn:E end.
  - injection H as <-. apply try_body_status in E.
    unfold status_strings. cbn in *. tauto.
  - destruct more; [eauto|discriminate].
  - destruct (handler e) as [status'|] eqn:Eh; [|discriminate].
    injection H as <-. apply handler_status in Eh.
    unfold status_strings. cbn in *. tauto.
Qed.

(** X2: a status string returned by a call is one of six:
    [inventory_private_or_empty], [inventory_empty],
    [inventory_private_or_error], [request_timeout], [network_error],
    [api_decode_error]. *)
Theorem fetched_status_is_known (replies : list reply) (status : string) :
  fetch_steam_inventory replies = Some (Status status) ->
  In status status_strings.
Proof.
  unfold fetch_steam_inventory.
  destruct (paginate replies initial_state) as [[status'|e|st]|] eqn:E; try discriminate.
  - intros [= <-]. eapply paginate_status; eauto.
  - destruct (join _ _); discriminate.
Qed.

Lemma fetched_status_is_known_witness : In "inventory_empty" status_strings.
Proof.
  exact (fetched_status_is_known [Body (JObj [])] "inventory_empty" eq_refl).
Defined.

(** X3: an asset record the loop cannot read makes the call crash.  On a
    page that is reached and has both keys, after valid records, a value
    of the asset list that is not an object makes the [get] of line 119
    raise [AttributeError], and a record whose [amount] is null, a list
    or an object makes the [int] of line 120 raise [TypeError]; no
    handler catches either, so the exception leaves the call. *)
Theorem malformed_asset_escapes
  (pre : list page) (p : page) (before after : list json) (bad : json)
  (rest : list reply) :
  forallb valid_page pre = true ->
  forallb continues pre = true ->
  obj_get "assets" p = Some (JArr (before ++ bad :: after)) ->
  obj_has "descriptions" p = true ->
  forallb valid_asset before = true ->
  let out := fetch_steam_inventory (replies_of pre ++ Body (JObj p) :: rest) in
  (is_object bad = false -> out = Some (Uncaught AttributeError)) /\
  (forall fields amount,
     bad = JObj fields ->
     obj_get "amount" fields = Some amount ->
     int_type_error amount = true ->
     out = Some (Uncaught TypeError)).
Proof.
  intros Hv Hc Hassets Hdescs Hbefore out. subst out. unfold fetch_steam_inventory.
  destruct (paginate_prefix pre (Body (JObj p) :: rest) Hv Hc initial_state)
    as (st & -> & _).
  assert (Hhas : obj_has "assets" p = true) by (unfold obj_has; now rewrite Hassets).
  cbn [paginate try_body]. rewrite Hhas, Hdescs. cbn [andb].
  unfold accumulate_page, obj_get_default. rewrite Hassets.
  cbn [py_iter bind fst asset_quantities]. rewrite foldM_app.
  destruct (add_assets_get before Hbefore (asset_quantities st)) as (d1 & -> & _).
  cbn [bind foldM]. unfold add_asset, asset_classid, asset_amount. split.
  - intros Hbad. destruct bad; try discriminate; reflexivity.
  - intros fields amount -> Hamount Htype.
    cbn [py_get bind]. unfold obj_get_default. rewrite Hamount.
    destruct amount; try discriminate; reflexivity.
Qed.

Lemma malformed_asset_escapes_witness :
  fetch_steam_inventory
    [Body (JObj sample_page_1);
     Body (JObj [("assets", JArr [asset_record "1" "3"; JStr "7"]);
                 ("descriptions", JArr [])])]
  = Some (Uncaught AttributeError) /\
  fetch_steam_inventory
    [Body (JObj sample_page_1);
     Body (JObj [("assets", JArr [asset_record "1" "3";
                                  JObj [("classid", JStr "7"); ("amount", JNull)]]);
                 ("descriptions", JArr [])])]
  = Some (Uncaught TypeError).
Proof.
  split.
  - exact (proj1 (malformed_asset_escapes [sample_page_1]
                    [("assets", JArr [asset_record "1" "3"; JStr "7"]);
                     ("descriptions", JArr [])]
                    [asset_record "1" "3"] [] (JStr "7") []
                    eq_refl eq_refl eq_refl eq_refl eq_refl) eq_refl).
  - exact (proj2 (malformed_asset_escapes [sample_page_1]
                    [("assets", JArr [asset_record "1" "3";
                                      JObj [("classid", JStr "7"); ("amount", JNull)]]);
                     ("descriptions", JArr [])]
                    [asset_record "1" "3"] []
                    (JObj [("classid", JStr "7"); ("amount", JNull)]) []
                    eq_refl eq_refl eq_refl eq_refl eq_refl)
             [("classid", JStr "7"); ("amount", JNull)] JNull eq_refl eq_refl eq_refl).
Defined.

(** X4: a decoded body that is not an object (null, a list, a string, a
    number) makes the call return [inventory_private_or_empty], on the
    first page as on a later one; what earlier pages brought is
    dropped. *)
Theorem non_object_body_outcome (pre : list page) (data : json) (rest : list reply) :
  forallb valid_page pre = true ->
  forallb continues pre = true ->
  (forall fields, data <> JObj fields) ->
  fetch_steam_inventory (replies_of pre ++ Body data :: rest)
  = Some (Status "inventory_private_or_empty").
Proof.
  intros Hv Hc Hdata. unfold fetch_steam_inventory.
  destruct (paginate_prefix pre (Body data :: rest) Hv Hc initial_state) as (st & -> & _).
  cbn [paginate try_body].
  destruct data; try reflexivity. now destruct (Hdata fields).
Qed.

Lemma non_object_body_outcome_witness :
  fetch_steam_inventory [Body (JObj sample_page_1); Body (JArr [])]
  = Some (Status "inventory_private_or_empty").
Proof.
  exact (non_object_body_outcome [sample_page_1] (JArr []) [] eq_refl eq_refl
           ltac:(discriminate)).
Defined.

Lemma paginate_more_replies (replies more : list reply) :
  forall st ex, paginate replies st = Some ex ->
  paginate (replies ++ more)%list st = Some ex.
Proof.
  induction replies as [|r rest IH]; cbn [paginate app]; intros st ex H; [discriminate|].
  match type of H with context [try_body r ?s] =>
    destruct (try_body r s) as [[status'|st2 [|]]|e0] end; auto.
Qed.

(** X5: once a call has returned, nothing the endpoint would have
    answered to further requests matters: the call makes no request
    after the one that ends it. *)
Theorem later_replies_unread (replies more : list reply) (o : outcome) :
  fetch_steam_inventory replies = Some o ->
  fetch_steam_inventory (replies ++ more) = Some o.
Proof.
  unfold fetch_steam_inventory.
  destruct (paginate replies initial_state) as [ex|] eqn:E; [|discriminate].
  now rewrite (paginate_more_replies replies more _ _ E).
Qed.

Lemma later_replies_unread_witness :
  fetch_steam_inventory (replies_of sample_pages ++ [Raises Timeout])
  = Some (Inventory sample_inventory).
Proof.
  exact (later_replies_unread (replies_of sample_pages) [Raises Timeout]
           (Inventory sample_inventory) eq_refl).
Defined.

(** ** More about the join *)

Lemma add_quantity_add (q1 q2 : Z) (it : item) :
  add_quantity q2 (add_quantity q1 it) = add_quantity (q1 + q2) it.
Proof. unfold add_quantity. cbn. f_equal. lia. Qed.

Lemma joinable_key (fields : list (string * json)) (c : key) :
  joinable_description (JObj fields) = true ->
  exists k,
    hash_key (obj_get_default "market_hash_name"
                (obj_get_default "name" (JStr ("Unknown Item " ++ py_str c)) fields)
                fields) = Ok k.
Proof.
  cbn [joinable_description]. intros H. apply andb_prop in H as [Hk _].
  unfold hashable, obj_get_default in *.
  destruct (obj_get "market_hash_name" fields) as [m|].
  - destruct (hash_key m); [eauto|discriminate].
  - destruct (obj_get "name" fields) as [n|].
    + destruct (hash_key n); [eauto|discriminate].
    + cbn [hash_key]. eauto.
Qed.

(** The step of the join for a classId with a readable description. *)
Lemma join_step_described (descriptions : dict json) (c : key) :
  described descriptions c = true ->
  exists k fresh,
    join_key descriptions c = Some k /\
    first_metadata descriptions c = Some fresh /\
    quantity fresh = 0 /\
    forall acc q,
      join_step descriptions acc (c, q) =
      Ok (dict_set k (add_quantity q match dict_get k acc with
                                     | Some it => it
                                     | None => fresh
                                     end) acc).
Proof.
  unfold described, join_key, first_metadata, join_step.
  destruct (dict_get c descriptions) as [desc|]; [|discriminate].
  intros Hj. destruct desc; try discriminate.
  destruct (joinable_key fields c Hj) as [k Hk].
  cbn [joinable_description] in Hj. apply andb_prop in Hj as [_ Hicon].
  destruct (full_icon_url_of_total fields Hicon) as [url Hurl].
  rewrite market_hash_name_of_obj, Hk, Hurl.
  exists k, (described_item fields c url). repeat split; auto.
  intros acc q. cbn [bind]. now rewrite Hk.
Qed.

Lemma merged_quantity_cons (descriptions : dict json) (k : key)
  (entry : key * Z) (quantities : dict Z) :
  merged_quantity descriptions k (entry :: quantities) =
  (if resolves_to descriptions k entry then snd entry else 0)
  + merged_quantity descriptions k quantities.
Proof.
  unfold merged_quantity. cbn [filter].
  destruct (resolves_to descriptions k entry); cbn [map fold_right]; lia.
Qed.

Lemma join_grouped_from (descriptions : dict json) (quantities : dict Z) :
  forallb (fun entry => described descriptions (fst entry)) quantities = true ->
  forall acc, exists inv,
    foldM (join_step descriptions) quantities acc = Ok inv /\
    forall k,
      dict_get k inv =
      match dict_get k acc with
      | Some it => Some (add_quantity (merged_quantity descriptions k quantities) it)
      | None =>
          match find (resolves_to descriptions k) quantities with
          | Some entry =>
              option_map (add_quantity (merged_quantity descriptions k quantities))
                (first_metadata descriptions (fst entry))
          | None => None
          end
      end.
Proof.
  induction quantities as [|[c q] l IH]; cbn [forallb foldM find fst]; intros Hall acc.
  - exists acc. split; auto. intros k.
    destruct (dict_get k acc) as [it|]; auto.
    f_equal. destruct it. unfold add_quantity, merged_quantity. cbn. f_equal. lia.
  - apply andb_prop in Hall as [Hc Hl].
    destruct (join_step_described descriptions c Hc) as (k0 & fresh & Hk0 & Hfresh & _ & Hstep).
    rewrite Hstep. cbn [bind]. destruct (IH Hl (dict_set k0 (add_quantity q
      match dict_get k0 acc with Some it => it | None => fresh end) acc))
      as (inv & Hinv & Hget).
    exists inv. split; auto. intros k. rewrite Hget, merged_quantity_cons, dict_get_set.
    assert (Hres : resolves_to descriptions k (c, q) = key_eqb k0 k).
    { unfold resolves_to. cbn [fst]. now rewrite Hk0. }
    rewrite !Hres. cbn [snd].
    destruct (key_eqb k0 k) eqn:E.
    + rewrite (dict_get_congr k0 k acc E), add_quantity_add.
      destruct (dict_get k acc); [reflexivity|].
      cbn [fst]. rewrite Hfresh. reflexivity.
    + reflexivity.
Qed.

(** ** The first description and the item *)









(** X6: when every classId with a quantity has a description the join
    can read, the join groups by key: the entry of a key holds the sum
    of the quantities of all classIds that resolve to it and the
    metadata of the first of them in the order of the quantities; a key
    no classId resolves to has no entry. *)
Theorem join_groups_by_key (quantities : dict Z) (descriptions : dict json) :
  forallb (fun entry => described descriptions (fst entry)) quantities = true ->
  exists inv,
    join quantities descriptions = Ok inv /\
    forall k,
      dict_get k inv =
      match find (resolves_to descriptions k) quantities with
      | Some entry =>
          option_map (add_quantity (merged_quantity descriptions k quantities))
            (first_metadata descriptions (fst entry))
      | None => None
      end.
Proof.
  intros Hall. unfold join.
  destruct (join_grouped_from descriptions quantities Hall []) as (inv & Hinv & Hget).
  exists inv. split; auto.
Qed.

Lemma join_groups_by_key_witness :
  exists inv,
    join sample_quantities sample_descriptions = Ok inv /\
    forall k,
      dict_get k inv =
      match find (resolves_to sample_descriptions k) sample_quantities with
      | Some entry =>
          option_map (add_quantity (merged_quantity sample_descriptions k sample_quantities))
            (first_metadata sample_descriptions (fst entry))
      | None => None
      end.
Proof.
  exact (join_groups_by_key sample_quantities sample_descriptions eq_refl).
Defined.

(** The two sample classIds share the name Widget: one entry, ten items,
    the metadata of classId 1. *)
Example join_sample_merge :
  join sample_quantities sample_descriptions =
  Ok [(KStr "Widget", add_quantity 1 sample_widget)].
Proof. reflexivity. Qed.

Lemma sum_quantities_set (k : key) (it : item) (d : dict item) :
  sum_quantities (dict_set k it d) =
  sum_quantities d
  - match dict_get k d with Some old => quantity old | None => 0 end
  + quantity it.
Proof.
  unfold sum_quantities.
  induction d as [|[k0 v0] d IH]; cbn [dict_set dict_get map fold_right snd].
  - lia.
  - destruct (key_eqb k0 k); cbn [map fold_right snd]; lia.
Qed.

Lemma join_conserves_from (descriptions : dict json) (quantities : dict Z) :
  forallb (fun entry => described descriptions (fst entry)) quantities = true ->
  forall acc inv,
    foldM (join_step descriptions) quantities acc = Ok inv ->
    sum_quantities inv = sum_quantities acc + sum_values quantities.
Proof.
  unfold sum_values.
  induction quantities as [|[c q] l IH]; cbn [forallb foldM map fold_right fst snd];
    intros Hall acc inv H.
  - injection H as <-. lia.
  - apply andb_prop in Hall as [Hc Hl].
    destruct (join_step_described descriptions c Hc) as (k0 & fresh & _ & _ & Hq & Hstep).
    rewrite Hstep in H. cbn [bind] in H.
    rewrite (IH Hl _ _ H), sum_quantities_set.
    destruct (dict_get k0 acc); cbn [add_quantity quantity]; lia.
Qed.

(** X7: when every classId with a quantity has a description the join
    can read, the join loses and invents nothing: the quantities of the
    returned inventory add up to the accumulated quantities. *)
Theorem join_conserves_quantity (quantities : dict Z) (descriptions : dict json)
  (inv : dict item) :
  forallb (fun entry => described descriptions (fst entry)) quantities = true ->
  join quantities descriptions = Ok inv ->
  sum_quantities inv = sum_values quantities.
Proof.
  intros Hall H. unfold join in H.
  now rewrite (join_conserves_from descriptions quantities Hall [] inv H).
Qed.

Lemma join_conserves_quantity_witness :
  sum_quantities [(KStr "Widget", add_quantity 1 sample_widget)] = 10.
Proof.
  exact (join_conserves_quantity sample_quantities sample_descriptions
           [(KStr "Widget", add_quantity 1 sample_widget)] eq_refl eq_refl).
Defined.

Lemma join_step_bound (descriptions : dict json) (acc acc' : dict item) (c : key) (q : Z) :
  join_step descriptions acc (c, q) = Ok acc' ->
  0 <= q ->
  (forall k it, In (k, it) acc -> 0 <= quantity it) ->
  (forall k it, In (k, it) acc' -> 0 <= quantity it) /\
  sum_quantities acc' <= sum_quantities acc + q.
Proof.
  unfold join_step. intros H Hq Hacc.
  assert (Hold : forall k, 0 <= match dict_get k acc with
                                | Some old => quantity old
                                | None => 0
                                end).
  { intros k. destruct (dict_get k acc) as [old|] eqn:E; [|lia].
    apply dict_get_In in E as [k' Hin]. eauto. }
  destruct (dict_get c descriptions) as [desc|].
  - destruct (market_hash_name_of desc c) as [mhn|]; [|discriminate]. cbn [bind] in H.
    destruct (full_icon_url_of desc) as [url|]; [|discriminate]. cbn [bind] in H.
    destruct (hash_key mhn) as [k|]; [|discriminate]. cbn [bind] in H.
    destruct desc; try discriminate. injection H as <-. split.
    + intros k' it Hin. apply dict_set_In in Hin as [->|Hin]; [|eauto].
      specialize (Hold k). cbn [add_quantity quantity].
      destruct (dict_get k acc); cbn [described_item quantity]; lia.
    + rewrite sum_quantities_set. specialize (Hold k).
      destruct (dict_get k acc); cbn [add_quantity described_item quantity]; lia.
  - injection H as <-. split.
    + intros k' it Hin. apply dict_set_In in Hin as [->|Hin]; [|eauto]. exact Hq.
    + rewrite sum_quantities_set. specialize (Hold (KStr (unknown_name c))).
      cbn [undescribed_item quantity]. lia.
Qed.

(** X8: with non-negative accumulated quantities, whatever the
    descriptions are, the returned inventory never holds more items
    than were accumulated (it can hold fewer: an undescribed classId
    replaces the entry of its key). *)
Theorem join_never_adds (quantities : dict Z) (descriptions : dict json)
  (inv : dict item) :
  (forall c q, In (c, q) quantities -> 0 <= q) ->
  join quantities descriptions = Ok inv ->
  sum_quantities inv <= sum_values quantities.
Proof.
  unfold join, sum_values. intros Hq H.
  enough (Hgen : forall l acc inv',
             (forall c q, In (c, q) l -> 0 <= q) ->
             (forall k it, In (k, it) acc -> 0 <= quantity it) ->
             foldM (join_step descriptions) l acc = Ok inv' ->
             sum_quantities inv' <= sum_quantities acc + fold_right Z.add 0 (map snd l)).
  { apply (Hgen quantities [] inv Hq); auto. intros ? ? []. }
  clear. induction l as [|[c q] l IH]; cbn [foldM map fold_right snd];
    intros acc inv' Hq Hacc H.
  - injection H as <-. lia.
  - destruct (join_step descriptions acc (c, q)) as [acc1|] eqn:E; [|discriminate].
    cbn [bind] in H.
    destruct (join_step_bound descriptions acc acc1 c q E) as [Hacc1 Hsum]; auto.
    { apply (Hq c). now left. }
    specialize (IH acc1 inv' (fun c' q' Hin => Hq c' q' (or_intror Hin)) Hacc1 H).
    lia.
Qed.

Lemma join_never_adds_witness :
  sum_quantities [(KStr "Unknown Item (ClassID: 2)", undescribed_item (KStr "2") 3)]
  <= sum_values [(KStr "1", 2); (KStr "2", 3)].
Proof.
  apply (join_never_adds [(KStr "1", 2); (KStr "2", 3)]
           [(KStr "1", description_record "1" "Unknown Item (ClassID: 2)" "Widget")]).
  - intros c q [[= <- <-]|[[= <- <-]|[]]]; lia.
  - reflexivity.
Defined.

(** ** More about the differ *)

Lemma collect_none (keep : key -> item -> bool) (inv : dict item) :
  (forall k it, In (k, it) inv -> keep k it = false) -> collect keep inv = [].
Proof.
  unfold collect. intros H.
  enough (Hgen : forall out,
             fold_left
               (fun out entry =>
                  if keep (fst entry) (snd entry)
                  then dict_set (fst entry) (snd entry) out else out) inv out = out)
    by apply Hgen.
  induction inv as [|[k it] inv IH]; cbn [fold_left fst snd]; intros out; auto.
  rewrite (H k it) by now left. apply IH. intros k' it' Hin. apply H. now right.
Qed.

Lemma In_dict_mem {V : Type} (k : key) (v : V) (d : dict V) :
  In (k, v) d -> dict_mem k d = true.
Proof.
  unfold dict_mem. induction d as [|[k0 v0] d IH]; cbn [In dict_get]; [tauto|].
  intros [[= -> ->]|Hin].
  - now rewrite key_eqb_refl.
  - destruct (key_eqb k0 k); auto.
Qed.

(** X9: an inventory compared with itself offers nothing either way. *)
Theorem differ_self (a : dict item) :
  fixed_user_has_you_dont_dupes (analyze_inventories_for_streamlit a a) = [] /\
  you_have_fixed_user_doesnt_dupes (analyze_inventories_for_streamlit a a) = [].
Proof.
  cbn [analyze_inventories_for_streamlit fixed_user_has_you_dont_dupes
         you_have_fixed_user_doesnt_dupes].
  split; apply collect_none; intros k it Hin;
    rewrite (In_dict_mem k it a Hin); apply andb_false_r.
Qed.

(** X10: when no item of the owner is both held more than once and
    tradable, the owner's two mappings are empty. *)
Theorem differ_no_duplicates (owner counterpart : dict item) :
  (forall k it, In (k, it) owner -> quantity it <= 1 \/ tradable it = false) ->
  fixed_user_tradable_duplicates (analyze_inventories_for_streamlit owner counterpart) = [] /\
  fixed_user_has_you_dont_dupes (analyze_inventories_for_streamlit owner counterpart) = [].
Proof.
  intros H.
  assert (Hkeep : forall k it, In (k, it) owner ->
                    (1 <? quantity it) && tradable it = false).
  { intros k it Hin. destruct (H k it Hin) as [Hq| ->]; [|apply andb_false_r].
    apply andb_false_iff. left. now apply Z.ltb_ge. }
  cbn [analyze_inventories_for_streamlit fixed_user_tradable_duplicates
         fixed_user_has_you_dont_dupes].
  split; apply collect_none; intros k it Hin; now rewrite (Hkeep k it Hin).
Qed.

Lemma differ_no_duplicates_witness :
  fixed_user_tradable_duplicates
    (analyze_inventories_for_streamlit [(KStr "Bolt", sample_bolt)] sample_counterpart) = [] /\
  fixed_user_has_you_dont_dupes
    (analyze_inventories_for_streamlit [(KStr "Bolt", sample_bolt)] sample_counterpart) = [].
Proof.
  apply differ_no_duplicates.
  intros k it [[= <- <-]|[]]. left. cbn. lia.
Defined.

(** X11: between two dictionaries, no key is offered both ways: a key
    of the owner's offer is absent from the counterpart's. *)
Theorem differ_offers_disjoint (owner counterpart : dict item) (k : key) (it : item) :
  dict_wf owner -> dict_wf counterpart ->
  dict_get k (fixed_user_has_you_dont_dupes
                (analyze_inventories_for_streamlit owner counterpart)) = Some it ->
  dict_get k (you_have_fixed_user_doesnt_dupes
                (analyze_inventories_for_streamlit owner counterpart)) = None.
Proof.
  cbn [analyze_inventories_for_streamlit fixed_user_has_you_dont_dupes
         you_have_fixed_user_doesnt_dupes].
  intros Ho Hc H.
  assert (Hmem : forall (d : dict item) k1 k2 (x : item), key_eqb k1 k2 = true ->
            (1 <? quantity x) && tradable x && negb (dict_mem k1 d) =
            (1 <? quantity x) && tradable x && negb (dict_mem k2 d)).
  { intros d k1 k2 x E. unfold dict_mem. now rewrite (dict_get_congr k1 k2 d E). }
  apply dict_get_collect in H; auto. destruct H as [Hown _].
  destruct (dict_get k (collect _ counterpart)) as [it'|] eqn:E; auto.
  apply dict_get_collect in E; auto. destruct E as [_ E].
  apply andb_prop in E as [_ E]. unfold dict_mem in E. now rewrite Hown in E.
Qed.

Lemma differ_offers_disjoint_witness :
  dict_get (KStr "Nut")
    (you_have_fixed_user_doesnt_dupes
       (analyze_inventories_for_streamlit sample_counterpart sample_inventory)) = None.
Proof.
  exact (differ_offers_disjoint sample_counterpart sample_inventory (KStr "Nut") sample_nut
           (conj eq_refl (conj eq_refl I)) (conj eq_refl (conj eq_refl I)) eq_refl).
Defined.

Lemma filter_filter {A : Type} (f g : A -> bool) (l : list A) :
  filter g (filter f l) = filter (fun x => f x && g x) l.
Proof.
  induction l as [|x l IH]; cbn [filter]; auto.
  destruct (f x); cbn [filter andb]; [destruct (g x)|]; now rewrite IH.
Qed.

(** X12: over a dictionary, the owner's offer is the owner's tradable
    duplicates without the entries whose key the counterpart has, in
    the same order; both list entries of the owner unchanged. *)
Theorem differ_offer_from_duplicates (owner counterpart : dict item) :
  dict_wf owner ->
  let r := analyze_inventories_for_streamlit owner counterpart in
  fixed_user_tradable_duplicates r =
    filter (fun entry => (1 <? quantity (snd entry)) && tradable (snd entry)) owner /\
  fixed_user_has_you_dont_dupes r =
    filter (fun entry => negb (dict_mem (fst entry) counterpart))
      (fixed_user_tradable_duplicates r).
Proof.
  intros Ho r. subst r.
  cbn [analyze_inventories_for_streamlit fixed_user_tradable_duplicates
         fixed_user_has_you_dont_dupes].
  rewrite !collect_filter by assumption. split; auto.
  now rewrite filter_filter.
Qed.

Lemma differ_offer_from_duplicates_witness :
  let r := analyze_inventories_for_streamlit sample_inventory sample_counterpart in
  fixed_user_tradable_duplicates r = [(KStr "Widget", sample_widget)] /\
  fixed_user_has_you_dont_dupes r = [].
Proof.
  exact (differ_offer_from_duplicates sample_inventory sample_counterpart
           (conj eq_refl (conj eq_refl I))).
Defined.

(** ** The store and profile lookups *)

Lemma lift_py_get_done (o : json) (field : string) (default v : json) :
  lift (py_get o field default) = Done v ->
  exists fields, o = JObj fields /\ v = obj_get_default field default fields.
Proof.
  destruct o; cbn; try discriminate. intros [= <-]. eauto.
Qed.

Lemma py_item_done (o : json) (field : string) (v : json) :
  py_item o field = Done v ->
  exists fields, o = JObj fields /\ obj_get field fields = Some v.
Proof.
  destruct o; cbn; try discriminate.
  destruct (obj_get field fields) eqn:E; [|discriminate].
  intros [= <-]. eauto.
Qed.

(** X13: [get_game_name] answers every exception of the request with
    the fallback name, and a name other than the fallback is always the
    [name] of the [data] object of the store's entry for the game, when
    that entry reports [success]. *)
Theorem game_name_source (app_id : string) :
  (forall e, isinstance_RequestException e = true ->
             get_game_name app_id (Raises e) = Done (default_game_name app_id)) /\
  (forall r game,
     get_game_name app_id r = Done game ->
     game = default_game_name app_id \/
     exists fields entry details,
       r = Body (JObj fields) /\
       obj_get app_id fields = Some (JObj entry) /\
       py_truthy (obj_get_default "success" JNull entry) = true /\
       obj_get "data" entry = Some (JObj details) /\
       obj_get "name" details = Some game).
Proof.
  split.
  - intros e He. unfold get_game_name. cbn [game_name_body]. now rewrite He.
  - intros r game. unfold get_game_name.
    destruct (game_name_body app_id r) as [[v|]|f] eqn:E.
    + intros [= <-]. destruct r as [e|data]; cbn [game_name_body] in E; [discriminate|].
      destruct (py_truthy data); [|discriminate].
      destruct (py_contains app_id data) as [[|]|]; cbn [attempt_bind] in E;
        try discriminate.
      destruct (py_item data app_id) as [entry|] eqn:Eentry; cbn [attempt_bind] in E;
        [|discriminate].
      destruct (lift (py_get entry "success" JNull)) as [success|] eqn:Es;
        cbn [attempt_bind] in E; [|discriminate].
      destruct (py_truthy success) eqn:Et; [|discriminate].
      destruct (py_item entry "data") as [details|] eqn:Ed; cbn [attempt_bind] in E;
        [|discriminate].
      destruct (lift (py_get details "name" (default_game_name app_id))) as [g|] eqn:Eg;
        cbn [attempt_bind] in E; [|discriminate].
      injection E as <-.
      apply py_item_done in Eentry as (fields & -> & Hentry).
      apply lift_py_get_done in Es as (efields & -> & ->).
      apply py_item_done in Ed as (efields' & [= <-] & Hdata).
      apply lift_py_get_done in Eg as (dfields & -> & ->).
      destruct (obj_get "name" dfields) as [n|] eqn:En.
      * right. exists fields, efields, dfields.
        unfold obj_get_default at 2. rewrite En. auto.
      * left. unfold obj_get_default. now rewrite En.
    + intros [= <-]. now left.
    + destruct f as [e| | |]; try discriminate.
      destruct (isinstance_RequestException e); [|discriminate].
      intros [= <-]. now left.
Qed.

Lemma game_name_source_witness :
  JStr "Deadlock" = default_game_name "2996990" \/
  exists fields entry details,
    Body (JObj [("2996990", JObj [("success", JBool true);
                                  ("data", JObj [("name", JStr "Deadlock")])])])
      = Body (JObj fields) /\
    obj_get "2996990" fields = Some (JObj entry) /\
    py_truthy (obj_get_default "success" JNull entry) = true /\
    obj_get "data" entry = Some (JObj details) /\
    obj_get "name" details = Some (JStr "Deadlock").
Proof.
  exact (proj2 (game_name_source "2996990")
           (Body (JObj [("2996990", JObj [("success", JBool true);
                                          ("data", JObj [("name", JStr "Deadlock")])])]))
           (JStr "Deadlock") eq_refl).
Defined.

(** X14: with an API key, [get_steam_user_info] raises nothing and its
    answer is determined by the reply: when the body is an object whose
    [response] object lists players starting with an object, it is the
    profile of that first player (personaname, avatarfull and profileurl,
    missing fields taking their defaults, and no error); for every other
    reply (a failed request, a body of another shape, no player) it is
    the default profile with the error [Profile fetch failed]. *)
Theorem user_info_dichotomy (api_key steam_id : string) (r : reply) :
  api_key <> "" ->
  get_steam_user_info (Some api_key) steam_id r =
    match first_player r with
    | Some player =>
        {| personaname := obj_get_default "personaname" (JStr ("User " ++ steam_id)) player;
           avatarfull := obj_get_default "avatarfull" (JStr "") player;
           profileurl := obj_get_default "profileurl"
                           (JStr ("https://steamcommunity.com/profiles/" ++ steam_id))
                           player;
           error := None |}
    | None => default_user_info steam_id "Profile fetch failed"
    end.
Proof.
  intros Hkey. unfold get_steam_user_info, first_player.
  destruct api_key as [|c api_key]; [congruence|].
  destruct r as [e|data]; [reflexivity|].
  destruct data as [| | | | |fields]; try reflexivity.
  cbn [user_info_body py_get lift attempt_bind py_item]. unfold obj_get_default.
  destruct (obj_get "response" fields) as [response|]; [|reflexivity].
  destruct response as [| | | | |response]; try reflexivity.
  cbn [py_get lift attempt_bind py_item]. unfold obj_get_default.
  destruct (obj_get "players" response) as [players|]; [|reflexivity].
  destruct players as [|[]|z|s|[|player others]|[|field others]];
    cbn [py_truthy py_first attempt_bind]; try reflexivity.
  - destruct (negb (z =? 0)); reflexivity.
  - destruct s as [|c0 s]; reflexivity.
  - destruct player; reflexivity.
Qed.

Lemma user_info_dichotomy_witness :
  get_steam_user_info (Some "k") "76561197989676140" sample_profile_reply =
    {| personaname := JStr "Player One";
       avatarfull := JStr "https://avatars/full.jpg";
       profileurl := JStr "https://steamcommunity.com/profiles/76561197989676140";
       error := None |} /\
  get_steam_user_info (Some "k") "76561197989676140" empty_profile_reply =
    default_user_info "76561197989676140" "Profile fetch failed".
Proof.
  split.
  - exact (user_info_dichotomy "k" "76561197989676140" sample_profile_reply
             ltac:(discriminate)).
  - exact (user_info_dichotomy "k" "76561197989676140" empty_profile_reply
             ltac:(discriminate)).
Defined.

(** ** The item grid *)

Lemma flat_map_map {A B C : Type} (f : A -> B) (g : B -> list C) (l : list A) :
  flat_map g (map f l) = flat_map (fun x => g (f x)) l.
Proof. induction l as [|x l IH]; cbn; congruence. Qed.

Lemma flat_map_flat_map {A B C : Type} (f : A -> list B) (g : B -> list C) (l : list A) :
  flat_map g (flat_map f l) = flat_map (fun x => flat_map g (f x)) l.
Proof.
  induction l as [|x l IH]; cbn [flat_map]; auto.
  now rewrite flat_map_app, IH.
Qed.

Lemma flat_map_ext_In {A B : Type} (f g : A -> list B) (l : list A) :
  (forall x, In x l -> f x = g x) -> flat_map f l = flat_map g l.
Proof.
  induction l as [|x l IH]; cbn [flat_map]; intros H; auto.
  rewrite (H x) by now left. rewrite IH; auto. intros y Hy. apply H. now right.
Qed.

Lemma map_add_seq (a start len : nat) :
  map (fun j => (a + j)%nat) (seq start len) = seq (a + start) len.
Proof.
  revert start. induction len as [|len IH]; intros start; cbn [seq map]; auto.
  rewrite IH. f_equal. f_equal. lia.
Qed.

(** Row by row, the cell indices are 0, 1, 2, ... *)
Lemma grid_indices (num_columns num_rows : nat) :
  flat_map (fun i => map (fun j => (i * num_columns + j)%nat) (seq 0 num_columns))
    (seq 0 num_rows)
  = seq 0 (num_rows * num_columns).
Proof.
  induction num_rows as [|r IH].
  - reflexivity.
  - rewrite seq_S, flat_map_app, IH. cbn [flat_map Nat.add]. rewrite app_nil_r.
    replace (S r * num_columns)%nat with (r * num_columns + num_columns)%nat by lia.
    rewrite seq_app. f_equal.
    rewrite map_add_seq. f_equal. lia.
Qed.

Lemma cards_of_cells (sorted_items : list (key * item)) (bound : nat) :
  (List.length sorted_items <= bound)%nat ->
  flat_map (fun k => match (if Nat.ltb k (List.length sorted_items)
                            then nth_error sorted_items k else None) with
                     | Some card => [card]
                     | None => []
                     end) (seq 0 bound)
  = sorted_items.
Proof.
  intros Hle.
  replace bound with (List.length sorted_items + (bound - List.length sorted_items))%nat
    by lia.
  rewrite seq_app, flat_map_app. cbn [Nat.add].
  set (n := List.length sorted_items).
  assert (Hrest : forall m start, (n <= start)%nat ->
            flat_map (fun k => match (if Nat.ltb k n then nth_error sorted_items k else None) with
                               | Some card => [card]
                               | None => []
                               end) (seq start m) = []).
  { induction m as [|m IH]; intros start Hs; cbn [seq flat_map]; auto.
    destruct (Nat.ltb_spec start n); [lia|]. rewrite IH by lia. reflexivity. }
  rewrite (Hrest _ n) by lia. rewrite app_nil_r. subst n. clear Hle Hrest.
  induction sorted_items as [|x l IH] using rev_ind.
  - reflexivity.
  - rewrite length_app. cbn [List.length]. rewrite Nat.add_1_r, seq_S, flat_map_app.
    cbn [Nat.add flat_map]. rewrite app_nil_r.
    destruct (Nat.ltb_spec (List.length l) (S (List.length l))); [|lia].
    rewrite nth_error_app2, Nat.sub_diag by lia. cbn [nth_error].
    f_equal. etransitivity; [|exact IH].
    apply flat_map_ext_In. intros k Hk. apply in_seq in Hk.
    destruct (Nat.ltb_spec k (S (List.length l))); [|lia].
    destruct (Nat.ltb_spec k (List.length l)); [|lia].
    now rewrite nth_error_app1 by lia.
Qed.

Lemma rows_cover (num_items num_columns : nat) :
  (0 < num_columns)%nat ->
  (num_items <= Nat.div (num_items + num_columns - 1) num_columns * num_columns)%nat.
Proof.
  intros Hc.
  pose proof (Nat.div_mod_eq (num_items + num_columns - 1) num_columns) as Hdm.
  pose proof (Nat.mod_upper_bound (num_items + num_columns - 1) num_columns) as Hm.
  nia.
Qed.

Lemma display_item_grid_cards (sorted_items : list (key * item)) (num_columns : nat) :
  (0 < num_columns)%nat ->
  exists g, display_item_grid sorted_items num_columns = Done g /\
            cards g = sorted_items.
Proof.
  intros Hc. unfold display_item_grid.
  destruct sorted_items as [|x l] eqn:El; [exists No_items; auto|]. rewrite <- El.
  destruct (Nat.eqb_spec num_columns 0) as [->|_]; [lia|].
  eexists. split; [reflexivity|]. cbn [cards].
  rewrite flat_map_map.
  rewrite (flat_map_ext _ (fun i =>
             flat_map (fun k => match (if Nat.ltb k (List.length sorted_items)
                                       then nth_error sorted_items k else None) with
                                | Some card => [card]
                                | None => []
                                end)
               (map (fun j => (i * num_columns + j)%nat) (seq 0 num_columns)))).
  - rewrite <- flat_map_flat_map, grid_indices.
    apply cards_of_cells. now apply rows_cover.
  - intros i. now rewrite !flat_map_map.
Qed.

(** X15: with at least one column, the grid shows every item exactly
    once: read row by row, its cards are the sorted items, in their
    order. *)
Theorem grid_shows_all (sorted_items : list (key * item)) (num_columns : nat) :
  (0 < num_columns)%nat ->
  exists g, display_item_grid sorted_items num_columns = Done g /\
            cards g = sorted_items.
Proof. apply display_item_grid_cards. Qed.

Lemma grid_shows_all_witness :
  exists g, display_item_grid sample_inventory 5 = Done g /\ cards g = sample_inventory.
Proof.
  apply grid_shows_all. lia.
Defined.

Lemma rows_needed (num_items num_columns : nat) :
  (0 < num_columns)%nat ->
  (Nat.div (num_items + num_columns - 1) num_columns * num_columns
   < num_items + num_columns)%nat.
Proof.
  intros Hc.
  pose proof (Nat.div_mod_eq (num_items + num_columns - 1) num_columns) as Hdm.
  nia.
Qed.

(** X16: for a non-empty list and at least one column, the grid has
    just the rows it needs: every row has [num_columns] cells, every
    row starts with a card (no row is blank), and the rows have room
    for all items but not for [num_columns] more. *)
Theorem grid_shape (sorted_items : list (key * item)) (num_columns : nat) :
  sorted_items <> [] ->
  (0 < num_columns)%nat ->
  exists rows,
    display_item_grid sorted_items num_columns = Done (Rows rows) /\
    Forall (fun row => List.length row = num_columns) rows /\
    Forall (fun row => exists card others, row = Some card :: others) rows /\
    (List.length sorted_items <= List.length rows * num_columns)%nat /\
    (List.length rows * num_columns < List.length sorted_items + num_columns)%nat.
Proof.
  intros Hne Hc. unfold display_item_grid.
  destruct sorted_items as [|x l] eqn:El; [congruence|]. rewrite <- El. clear Hne.
  destruct (Nat.eqb_spec num_columns 0) as [->|_]; [lia|].
  set (n := List.length sorted_items).
  set (r := Nat.div (n + num_columns - 1) num_columns).
  eexists. split; [reflexivity|].
  pose proof (rows_cover n num_columns Hc) as Hcover.
  pose proof (rows_needed n num_columns Hc) as Hneed. fold r in Hcover, Hneed.
  rewrite length_map, length_seq. repeat split; auto.
  - apply Forall_forall. intros row Hrow. apply in_map_iff in Hrow as (i & <- & _).
    now rewrite length_map, length_seq.
  - apply Forall_forall. intros row Hrow. apply in_map_iff in Hrow as (i & <- & Hi).
    apply in_seq in Hi.
    destruct num_columns as [|c]; [lia|]. cbn [seq map].
    destruct (Nat.ltb_spec (i * S c + 0) n) as [Hlt|Hge]; [|nia].
    destruct (nth_error sorted_items (i * S c + 0)) as [card|] eqn:E.
    + eauto.
    + apply nth_error_None in E. fold n in E. lia.
Qed.

Lemma grid_shape_witness :
  exists rows,
    display_item_grid sample_inventory 1 = Done (Rows rows) /\
    Forall (fun row => List.length row = 1%nat) rows /\
    Forall (fun row => exists card others, row = Some card :: others) rows /\
    (List.length sample_inventory <= List.length rows * 1)%nat /\
    (List.length rows * 1 < List.length sample_inventory + 1)%nat.
Proof.
  apply grid_shape; [discriminate|lia].
Defined.

(** Seven items in five columns: two rows, the second with two cards. *)
Example grid_seven_in_five :
  let it := sample_bolt in
  let items := [(KStr "a", it); (KStr "b", it); (KStr "c", it); (KStr "d", it);
                (KStr "e", it); (KStr "f", it); (KStr "g", it)] in
  display_item_grid items 5 =
  Done (Rows [[Some (KStr "a", it); Some (KStr "b", it); Some (KStr "c", it);
               Some (KStr "d", it); Some (KStr "e", it)];
              [Some (KStr "f", it); Some (KStr "g", it); None; None; None]]).
Proof. reflexivity. Qed.

(** Without columns, a non-empty grid divides by zero; an empty one
    only says that there is nothing to show. *)
Example grid_no_columns :
  display_item_grid sample_inventory 0 = Failed ZeroDivisionError /\
  display_item_grid [] 0 = Done No_items.
Proof. split; reflexivity. Qed.

(** ** The analysis page *)

(** *** The sort by name *)

Lemma name_lt_asym (a b : json) : name_lt a b = true -> name_lt b a = false.
Proof.
  destruct a as [|x|x|s| |], b as [|y|y|t| |]; cbn [name_lt]; try discriminate;
    try (intros H; apply Z.ltb_lt in H; apply Z.ltb_ge; lia).
  unfold String.ltb. rewrite (String.compare_antisym t s).
  destruct (String.compare s t); cbn [CompOpp]; congruence.
Qed.

Lemma insert_by_name_perm (entry : key * item) (l : list (key * item)) :
  Permutation (entry :: l) (insert_by_name entry l).
Proof.
  induction l as [|other rest IH]; cbn [insert_by_name]; [reflexivity|].
  destruct (name_lt (name (snd other)) (name (snd entry))); [|reflexivity].
  etransitivity; [apply perm_swap|]. now apply perm_skip.
Qed.

Lemma sort_by_name_perm (l : list (key * item)) :
  Permutation l (fold_right insert_by_name [] l).
Proof.
  induction l as [|entry l IH]; cbn [fold_right]; [reflexivity|].
  etransitivity; [apply perm_skip, IH|]. apply insert_by_name_perm.
Qed.

Lemma insert_by_name_ordered (entry : key * item) (l : list (key * item)) :
  name_ordered l -> name_ordered (insert_by_name entry l).
Proof.
  unfold name_ordered.
  induction l as [|other rest IH]; cbn [insert_by_name]; intros Hl.
  - constructor; constructor.
  - destruct (name_lt (name (snd other)) (name (snd entry))) eqn:E.
    + inversion Hl as [|? ? Hrest Hhd]; subst. constructor; [now apply IH|].
      destruct rest as [|next rest]; cbn [insert_by_name].
      * constructor. now apply name_lt_asym.
      * destruct (name_lt (name (snd next)) (name (snd entry))).
        -- inversion Hhd; subst. now constructor.
        -- constructor. now apply name_lt_asym.
    + constructor; [exact Hl|]. now constructor.
Qed.

Lemma sort_by_name_ordered (l : list (key * item)) :
  name_ordered (fold_right insert_by_name [] l).
Proof.
  induction l as [|entry l IH]; cbn [fold_right].
  - constructor.
  - now apply insert_by_name_ordered.
Qed.

Lemma sorted_by_name_done (items sorted_items : list (key * item)) :
  sorted_by_name items = Some (Done sorted_items) ->
  Permutation items sorted_items /\ name_ordered sorted_items.
Proof.
  unfold sorted_by_name.
  destruct items as [|first [|second rest]].
  - intros [= <-]. split; [reflexivity|constructor].
  - intros [= <-]. split; [reflexivity|]. constructor; constructor.
  - destruct (forallb is_text _ || forallb is_number _).
    + intros [= <-]. split.
      * apply (sort_by_name_perm (first :: second :: rest)).
      * apply (sort_by_name_ordered (first :: second :: rest)).
    + destruct (forallb is_list _); discriminate.
Qed.

(** X24: a grid that [display_item_grid] completes shows every entry of
    the mapping exactly once, in the order of the names: read row by
    row, its cards are a rearrangement of the entries in which no card
    has a name below that of the card before it. *)
Theorem displayed_grid_sorted (items_dict : dict item) (g : grid) :
  display_items_dict items_dict = Some (Done g) ->
  Permutation items_dict (cards g) /\ name_ordered (cards g).
Proof.
  unfold display_items_dict.
  destruct items_dict as [|first rest] eqn:Eitems.
  - intros [= <-]. split; [reflexivity|constructor].
  - rewrite <- Eitems. clear Eitems.
    destruct (sorted_by_name items_dict) as [[sorted_items|f]|] eqn:Es;
      cbn [page_bind]; try discriminate.
    intros [= Hg].
    destruct (display_item_grid_cards sorted_items 5) as (g' & Hg' & Hcards); [lia|].
    rewrite Hg in Hg'. injection Hg' as <-. rewrite Hcards.
    now apply sorted_by_name_done.
Qed.

Lemma displayed_grid_sorted_witness :
  exists g,
    display_items_dict [(KStr "Nut", sample_nut); (KStr "Widget", sample_widget)]
      = Some (Done g) /\
    cards g = [(KStr "Widget", sample_widget); (KStr "Nut", sample_nut)] /\
    Permutation [(KStr "Nut", sample_nut); (KStr "Widget", sample_widget)] (cards g) /\
    name_ordered (cards g).
Proof.
  eexists. split; [reflexivity|]. split; [reflexivity|].
  exact (displayed_grid_sorted
           [(KStr "Nut", sample_nut); (KStr "Widget", sample_widget)] _ eq_refl).
Defined.

(** *** The page *)

Lemma displayed_grids_app (p q : list ui) :
  displayed_grids (p ++ q)%list = (displayed_grids p ++ displayed_grids q)%list.
Proof. apply flat_map_app. Qed.

Lemma profile_notice_no_grid (info : user_info) :
  displayed_grids (profile_notice info) = [].
Proof.
  unfold profile_notice. destruct (error info) as [err|]; auto.
  destruct (String.eqb err "API Key not configured"); auto.
  destruct (String.eqb err ""); auto.
Qed.

Lemma load_inventory_no_grid (who : string) (fetched : outcome)
  (shown : list ui) (kept : option (dict item)) :
  load_inventory who fetched = Done (shown, kept) ->
  displayed_grids shown = [] /\
  kept = match fetched with
         | Inventory (entry :: inv) => Some (entry :: inv)
         | _ => None
         end.
Proof.
  destruct fetched as [[|entry inv]|status|e]; cbn [load_inventory];
    try discriminate; intros [= <- <-]; auto.
Qed.

Lemma verdict_grids (inventory_owner inventory_you : option (dict item))
  (analysis : list ui) :
  verdict inventory_owner inventory_you = Some (Done analysis) ->
  displayed_grids analysis =
    match inventory_owner, inventory_you with
    | Some owner, Some you =>
        let r := analyze_inventories_for_streamlit owner you in
        [fixed_user_has_you_dont_dupes r; you_have_fixed_user_doesnt_dupes r;
         fixed_user_tradable_duplicates r]
    | _, _ => []
    end /\
  forall items_dict, In items_dict (displayed_grids analysis) ->
    exists g, display_items_dict items_dict = Some (Done g).
Proof.
  unfold verdict.
  destruct inventory_owner as [owner|], inventory_you as [you|];
    try (intros [= <-]; split; [reflexivity|intros d []]).
  cbv zeta.
  destruct (display_items_dict
              (fixed_user_has_you_dont_dupes (analyze_inventories_for_streamlit owner you)))
    as [[g1|f1]|] eqn:E1; cbn [page_bind]; try discriminate.
  destruct (display_items_dict
              (you_have_fixed_user_doesnt_dupes (analyze_inventories_for_streamlit owner you)))
    as [[g2|f2]|] eqn:E2; cbn [page_bind]; try discriminate.
  destruct (display_items_dict
              (fixed_user_tradable_duplicates (analyze_inventories_for_streamlit owner you)))
    as [[g3|f3]|] eqn:E3; cbn [page_bind]; try discriminate.
  intros [= <-]. split; [reflexivity|].
  cbn [displayed_grids flat_map app].
  intros d [<-|[<-|[<-|[]]]]; eauto.
Qed.

Lemma run_inventory_analysis_grids (your_user_info current_fixed_user_info : user_info)
  (owner_result you_result : outcome) (shown : list ui) :
  run_inventory_analysis your_user_info current_fixed_user_info owner_result you_result
    = Some (Done shown) ->
  displayed_grids shown =
    match owner_result, you_result with
    | Inventory (a0 :: a), Inventory (b0 :: b) =>
        let r := analyze_inventories_for_streamlit (a0 :: a) (b0 :: b) in
        [fixed_user_has_you_dont_dupes r; you_have_fixed_user_doesnt_dupes r;
         fixed_user_tradable_duplicates r]
    | _, _ => []
    end /\
  forall items_dict, In items_dict (displayed_grids shown) ->
    exists g, display_items_dict items_dict = Some (Done g).
Proof.
  unfold run_inventory_analysis.
  destruct (load_inventory "My" owner_result) as [[shown1 kept1]|] eqn:E1;
    cbn [page_bind]; [|discriminate].
  destruct (load_inventory "Your" you_result) as [[shown2 kept2]|] eqn:E2;
    cbn [page_bind]; [|discriminate].
  cbn [fst snd].
  destruct (verdict kept1 kept2) as [[analysis|f]|] eqn:E3; cbn [page_bind];
    try discriminate.
  intros [= <-].
  apply load_inventory_no_grid in E1 as [G1 ->].
  apply load_inventory_no_grid in E2 as [G2 ->].
  pose proof (profile_notice_no_grid your_user_info) as G0.
  apply verdict_grids in E3 as [G3 Hshown].
  assert (Hgrids : displayed_grids
                     (profile_notice your_user_info
                        ++ [St_subheader "Me"; Profile current_fixed_user_info true]
                        ++ shown1
                        ++ [St_subheader "You"; Profile your_user_info false]
                        ++ shown2 ++ analysis)%list
                   = displayed_grids analysis).
  { clear G3 Hshown. unfold displayed_grids in *.
    rewrite flat_map_app, G0. cbn [flat_map app].
    rewrite flat_map_app, G1. cbn [flat_map app].
    rewrite flat_map_app, G2. reflexivity. }
  split.
  - etransitivity; [exact Hgrids|]. rewrite G3.
    destruct owner_result as [[|a0 a]|s1|e1], you_result as [[|b0 b]|s2|e2]; reflexivity.
  - intros items_dict Hin. apply Hshown. rewrite <- Hgrids. exact Hin.
Qed.


(** X17: on an analysis page that completes, item grids are shown only
    when both fetches returned a non-empty mapping, and then three, in
    this order: what the owner offers, what the partner offers, the
    owner's tradable duplicates, each of them a grid whose sort and
    display completed.  A status string or an empty mapping on either
    side leaves the page without grid. *)
Theorem analysis_page_grids (your_user_info current_fixed_user_info : user_info)
  (owner_result you_result : outcome) (shown : list ui) :
  run_inventory_analysis your_user_info current_fixed_user_info owner_result you_result
    = Some (Done shown) ->
  displayed_grids shown =
    match owner_result, you_result with
    | Inventory (a0 :: a), Inventory (b0 :: b) =>
        let r := analyze_inventories_for_streamlit (a0 :: a) (b0 :: b) in
        [fixed_user_has_you_dont_dupes r; you_have_fixed_user_doesnt_dupes r;
         fixed_user_tradable_duplicates r]
    | _, _ => []
    end /\
  forall items_dict, In items_dict (displayed_grids shown) ->
    exists g, display_items_dict items_dict = Some (Done g).
Proof. apply run_inventory_analysis_grids. Qed.

Lemma analysis_page_grids_witness :
  exists shown,
    run_inventory_analysis (default_user_info "2" "")
      (default_user_info "1" "Profile fetch failed")
      (Inventory sample_inventory) (Inventory sample_counterpart) = Some (Done shown) /\
    displayed_grids shown =
      [[]; [(KStr "Nut", sample_nut)]; [(KStr "Widget", sample_widget)]].
Proof.
  eexists. split; [reflexivity|].
  exact (proj1 (analysis_page_grids (default_user_info "2" "")
                  (default_user_info "1" "Profile fetch failed")
                  (Inventory sample_inventory) (Inventory sample_counterpart) _ eq_refl)).
Defined.

(** Names that do not compare end the page: here the owner offers two
    items, one named by a string and one with a null name; the sort of
    the first grid raises [TypeError] and no grid is shown. *)
Example analysis_page_sort_failure :
  let nameless := {| quantity := 2; icon_url := ""; name := JNull; classid := KStr "5";
                     tradable := true; marketable := false; tags := JArr [] |} in
  run_inventory_analysis (default_user_info "2" "") (default_user_info "1" "")
    (Inventory [(KStr "Widget", sample_widget); (KStr "Unknown Item 5", nameless)])
    (Inventory [(KStr "Nut", sample_nut)])
  = Some (Failed (Exn TypeError)).
Proof. reflexivity. Qed.

(** ** The Steam login *)

Lemma take_digits_all_digits (s : string) : all_digits (take_digits s) = true.
Proof.
  induction s as [|c s IH]; cbn [take_digits]; auto.
  destruct (is_digit c) eqn:E; cbn [all_digits]; auto. now rewrite E.
Qed.

Lemma take_digits_app (digits rest : string) :
  all_digits digits = true -> take_digits rest = "" ->
  take_digits (digits ++ rest) = digits.
Proof.
  induction digits as [|c d IH]; cbn [all_digits append take_digits]; auto.
  intros H Hrest. apply andb_prop in H as [Hc Hd]. rewrite Hc. f_equal. auto.
Qed.

Lemma match_here_digits (s digits : string) :
  match_here s = Some digits -> isdigit digits = true.
Proof.
  unfold match_here. destruct (match_prefix claimed_id_prefix s) as [rest|]; [|discriminate].
  pose proof (take_digits_all_digits rest) as H.
  destruct (take_digits rest) as [|c d]; [discriminate|].
  intros [= <-]. exact H.
Qed.

Lemma search_here (s digits : string) :
  match_here s = Some digits -> search_claimed_id s = Some digits.
Proof. intros H. destruct s; cbn [search_claimed_id]; now rewrite H. Qed.

Lemma search_claimed_id_isdigit (s digits : string) :
  search_claimed_id s = Some digits -> isdigit digits = true.
Proof.
  induction s as [|c s IH]; cbn [search_claimed_id].
  - destruct (match_here "") eqn:E; [|discriminate].
    intros [= <-]. eapply match_here_digits; eauto.
  - destruct (match_here (String c s)) eqn:E; [|exact IH].
    intros [= <-]. eapply match_here_digits; eauto.
Qed.

(** X18: the id the login takes from an ASCII claimed id is never empty
    and holds digits only. *)
Theorem claimed_id_digits (s digits : string) :
  ascii_only s = true ->
  search_claimed_id s = Some digits -> isdigit digits = true.
Proof. intros _. apply search_claimed_id_isdigit. Qed.

Lemma claimed_id_digits_witness : isdigit "42" = true.
Proof.
  exact (claimed_id_digits "see https://steamcommunity.com/openid/id/42/" "42"
           eq_refl eq_refl).
Defined.

(** X19: the claimed id Steam issues for an account, the address
    [https://steamcommunity.com/openid/id/] followed by the digits of
    the id, gives back exactly these digits, whatever follows them that
    does not start with a digit. *)
Theorem claimed_id_round_trip (digits rest : string) :
  isdigit digits = true ->
  ascii_only rest = true ->
  take_digits rest = "" ->
  search_claimed_id (claimed_id_prefix ++ digits ++ rest) = Some digits.
Proof.
  intros Hd _ Hrest. apply search_here. unfold match_here.
  change (match_prefix claimed_id_prefix (claimed_id_prefix ++ digits ++ rest))
    with (Some (digits ++ rest)).
  destruct digits as [|c d]; [discriminate|].
  rewrite take_digits_app; auto.
Qed.

Lemma claimed_id_round_trip_witness :
  search_claimed_id "https://steamcommunity.com/openid/id/76561197989676140"
  = Some "76561197989676140".
Proof.
  exact (claimed_id_round_trip "76561197989676140" "" eq_refl eq_refl eq_refl).
Defined.

(** X20: the pattern is searched, not matched against the whole claimed
    id: whatever text precedes the address, an id is taken. *)
Theorem claimed_id_found_anywhere (before digits rest : string) :
  ascii_only before = true ->
  ascii_only rest = true ->
  isdigit digits = true ->
  search_claimed_id (before ++ claimed_id_prefix ++ digits ++ rest) <> None.
Proof.
  intros _ _ Hd. induction before as [|c b IH].
  - cbn [append].
    assert (H : exists found,
               match_here (claimed_id_prefix ++ digits ++ rest) = Some found).
    { unfold match_here.
      change (match_prefix claimed_id_prefix (claimed_id_prefix ++ digits ++ rest))
        with (Some (digits ++ rest)).
      destruct digits as [|d0 d]; [discriminate|]. cbn [isdigit all_digits] in Hd.
      apply andb_prop in Hd as [Hd0 _]. cbn [append take_digits]. rewrite Hd0.
      eauto. }
    destruct H as [found H]. now rewrite (search_here _ _ H).
  - cbn [append search_claimed_id].
    destruct (match_here _); [discriminate|exact IH].
Qed.

Lemma claimed_id_found_anywhere_witness :
  search_claimed_id ("http://example.org/?" ++ claimed_id_prefix ++ "7" ++ "") <> None.
Proof.
  exact (claimed_id_found_anywhere "http://example.org/?" "7" "" eq_refl eq_refl eq_refl).
Defined.

(** The dot of [.com] stands for any character. *)
Example claimed_id_dot :
  search_claimed_id "https://steamcommunity_com/openid/id/123" = Some "123".
Proof. reflexivity. Qed.

Lemma isdigit_not_empty (s : string) : isdigit s = true -> String.eqb s "" = false.
Proof. destruct s; [discriminate|reflexivity]. Qed.

Lemma openid_callback_id_res (s : session) (openid_mode claimed_id : option param)
  (claimed : string) :
  first_value openid_mode = Some "id_res" ->
  first_value claimed_id = Some claimed ->
  openid_callback openid_mode claimed_id s =
  match search_claimed_id claimed with
  | Some steam_id_64 =>
      ({| queried_steam_id := Some steam_id_64;
          analysis_triggered_once := analysis_triggered_once s;
          initiate_auto_analysis := true;
          last_analyzed_id := last_analyzed_id s;
          show_login_error := false |}, Goes_on true)
  | None =>
      ({| queried_steam_id := None;
          analysis_triggered_once := analysis_triggered_once s;
          initiate_auto_analysis := false;
          last_analyzed_id := last_analyzed_id s;
          show_login_error := true |}, Goes_on true)
  end.
Proof.
  intros Hmode Hclaimed. unfold openid_callback. rewrite Hmode, Hclaimed.
  destruct claimed; reflexivity.
Qed.

(** X21: an [id_res] answer whose ASCII claimed id holds the address starts
    the analysis exactly when the digits taken from it are 17: the id
    is then the one queried and the one last analysed, and nothing is
    reported; with any other number of digits the id is dropped, no
    analysis starts and the invalid-format error is shown. *)
Theorem login_with_claimed_id (s : session) (openid_mode claimed_id : option param)
  (claimed digits : string) :
  first_value openid_mode = Some "id_res" ->
  first_value claimed_id = Some claimed ->
  ascii_only claimed = true ->
  search_claimed_id claimed = Some digits ->
  login openid_mode claimed_id s =
    if Nat.eqb (String.length digits) 17 then
      ({| queried_steam_id := Some digits; analysis_triggered_once := true;
          initiate_auto_analysis := false; last_analyzed_id := Some digits;
          show_login_error := false |}, [], Goes_on true)
    else
      ({| queried_steam_id := None; analysis_triggered_once := false;
          initiate_auto_analysis := false; last_analyzed_id := last_analyzed_id s;
          show_login_error := false |},
       [St_error ("Invalid SteamID format received: '" ++ digits
                    ++ "'. Please provide a valid 64-bit SteamID.")],
       Goes_on true).
Proof.
  intros Hmode Hclaimed Hascii Hsearch.
  pose proof (search_claimed_id_isdigit _ _ Hsearch) as Hd.
  unfold login. rewrite (openid_callback_id_res s _ _ claimed Hmode Hclaimed), Hsearch.
  unfold auto_analysis. cbn [queried_steam_id initiate_auto_analysis andb
    analysis_triggered_once last_analyzed_id show_login_error].
  rewrite (isdigit_not_empty _ Hd). cbn [negb].
  unfold valid_steam_id. rewrite Hd. cbn [andb].
  destruct (Nat.eqb (String.length digits) 17); reflexivity.
Qed.

Lemma login_with_claimed_id_witness :
  login (Some (One "id_res"))
    (Some (Many ["https://steamcommunity.com/openid/id/76561197989676140"]))
    new_session =
  ({| queried_steam_id := Some "76561197989676140"; analysis_triggered_once := true;
      initiate_auto_analysis := false; last_analyzed_id := Some "76561197989676140";
      show_login_error := false |}, [], Goes_on true).
Proof.
  exact (login_with_claimed_id new_session (Some (One "id_res"))
           (Some (Many ["https://steamcommunity.com/openid/id/76561197989676140"]))
           "https://steamcommunity.com/openid/id/76561197989676140"
           "76561197989676140" eq_refl eq_refl eq_refl eq_refl).
Defined.

(** X22: on ASCII text, the login never starts an analysis for an id
    that is not made of 17 digits: when the analysis is started by the
    callback and the trigger, the queried id is valid and is the one
    recorded as last analysed. *)
Theorem login_starts_only_valid (s : session) (openid_mode claimed_id : option param) :
  ascii_param claimed_id = true ->
  ascii_session s = true ->
  analysis_triggered_once s = false ->
  analysis_triggered_once (fst (fst (login openid_mode claimed_id s))) = true ->
  exists id,
    queried_steam_id (fst (fst (login openid_mode claimed_id s))) = Some id /\
    last_analyzed_id (fst (fst (login openid_mode claimed_id s))) = Some id /\
    valid_steam_id id = true.
Proof.
  intros _ _ Hs. unfold login.
  destruct (openid_callback openid_mode claimed_id s) as [s1 [cleared|]] eqn:Ec.
  - assert (H1 : analysis_triggered_once s1 = false).
    { unfold openid_callback in Ec.
      destruct (first_value openid_mode) as [[|c m]|]; try (injection Ec as <- _; exact Hs).
      destruct (String.eqb (String c m) "id_res").
      - destruct (match first_value claimed_id with
                  | Some EmptyString | None => None
                  | Some actual => search_claimed_id actual
                  end); injection Ec as <- _; exact Hs.
      - destruct (String.eqb (String c m) "cancel"); [discriminate|].
        injection Ec as <- _; exact Hs. }
    cbn [fst]. unfold auto_analysis.
    destruct (queried_steam_id s1) as [id|] eqn:Eq; cbn [fst]; [|congruence].
    destruct (initiate_auto_analysis s1 && negb (String.eqb id "")); cbn [fst];
      [|congruence].
    destruct (valid_steam_id id) eqn:Ev; cbn [fst analysis_triggered_once
      queried_steam_id last_analyzed_id]; [|discriminate].
    intros _. exists id. auto.
  - cbn [fst]. unfold openid_callback in Ec.
    destruct (first_value openid_mode) as [[|c m]|]; try discriminate.
    destruct (String.eqb (String c m) "id_res").
    + destruct (match first_value claimed_id with
                | Some EmptyString | None => None
                | Some actual => search_claimed_id actual
                end); discriminate.
    + destruct (String.eqb (String c m) "cancel"); [|discriminate].
      injection Ec as <-. cbn [analysis_triggered_once]. congruence.
Qed.

Lemma login_starts_only_valid_witness :
  exists id,
    queried_steam_id
      (fst (fst (login (Some (One "id_res"))
                   (Some (One "https://steamcommunity.com/openid/id/76561197989676140"))
                   new_session))) = Some id /\
    last_analyzed_id
      (fst (fst (login (Some (One "id_res"))
                   (Some (One "https://steamcommunity.com/openid/id/76561197989676140"))
                   new_session))) = Some id /\
    valid_steam_id id = true.
Proof.
  exact (login_starts_only_valid new_session (Some (One "id_res"))
           (Some (One "https://steamcommunity.com/openid/id/76561197989676140"))
           eq_refl eq_refl eq_refl eq_refl).
Defined.

(** A cancelled login reports the failure and runs the script again; an
    [id_res] answer without a usable claimed id reports it too. *)
Example login_cancelled :
  login (Some (One "cancel")) None new_session =
  ({| queried_steam_id := None; analysis_triggered_once := false;
      initiate_auto_analysis := false; last_analyzed_id := None;
      show_login_error := true |}, [], Rerun).
Proof. reflexivity. Qed.

Example login_without_claimed_id :
  login (Some (One "id_res")) (Some (One "https://example.org/id/1")) new_session =
  ({| queried_steam_id := None; analysis_triggered_once := false;
      initiate_auto_analysis := false; last_analyzed_id := None;
      show_login_error := true |}, [], Goes_on true).
Proof. reflexivity. Qed.

(** ** An inventory without assets *)

(** X23: pages that have the two keys but carry no asset record give an
    empty mapping, not the status [inventory_empty]; the analysis page
    then reports the inventory as empty or not loaded and shows no
    grid. *)
Theorem no_assets_empty_mapping (pages : list page)
  (your_user_info current_fixed_user_info : user_info) (you_result : outcome) :
  forallb valid_page pages = true ->
  paginated pages = true ->
  all_assets pages = [] ->
  fetch_steam_inventory (replies_of pages) = Some (Inventory []) /\
  forall shown,
    run_inventory_analysis your_user_info current_fixed_user_info
      (Inventory []) you_result = Some (Done shown) ->
    In (St_info "My inventory is empty or could not be loaded.") shown /\
    displayed_grids shown = [].
Proof.
  intros Hv Hp Hnone. split.
  - unfold fetch_steam_inventory.
    destruct (paginate_pages pages initial_state Hv Hp) as (st & -> & _ & Ha & _).
    rewrite Hnone in Ha. cbn [foldM asset_quantities initial_state] in Ha.
    injection Ha as <-. reflexivity.
  - intros shown H. split.
    + unfold run_inventory_analysis in H. cbn [load_inventory page_bind] in H.
      destruct (load_inventory "Your" you_result) as [you|]; cbn [page_bind] in H;
        [|discriminate].
      destruct (verdict _ _) as [[analysis|f]|]; cbn [page_bind] in H; try discriminate.
      injection H as <-. cbn [fst].
      apply in_or_app. right. right. right. now left.
    + now rewrite (proj1 (run_inventory_analysis_grids _ _ _ _ _ H)).
Qed.

Lemma no_assets_empty_mapping_witness :
  fetch_steam_inventory
    [Body (JObj [("assets", JArr []); ("descriptions", JArr [])])]
  = Some (Inventory []).
Proof.
  exact (proj1 (no_assets_empty_mapping
                  [[("assets", JArr []); ("descriptions", JArr [])]]
                  (default_user_info "2" "") (default_user_info "1" "")
                  (Inventory sample_inventory) eq_refl eq_refl eq_refl)).
Defined.
